(** * The request gateway of the TDG API client (src/api.ts, src/batchApi.ts)

    A shallow embedding of [apiRequest], [uploadFile], [downloadFile] and
    [downloadBatchResults], with the part of the JavaScript platform they
    call (truthiness, own-property enumeration, [URLSearchParams], [fetch],
    [Response], the anchor-click download), and the properties of the
    gateway proved over it. *)

From Stdlib Require Import String Ascii List ZArith NArith Bool Lia Permutation.
From Stdlib Require Import DecimalString DecimalNat.
Import ListNotations.
Local Open Scope string_scope.
Local Open Scope list_scope.

Set Implicit Arguments.

(** ** JavaScript values *)

(** A [File] handed to [uploadFile] and a [Blob] read from a response. *)
Record File := mkFile { file_name : string; file_bytes : string }.
Record Blob := mkBlob { blob_bytes : string }.

(** An entry value of a [FormData]: a file or a string. *)
Inductive FormValue :=
| FVFile (f : File)
| FVString (s : string).

(** [FormData] keeps its entries in the order of the [append] calls, with
    duplicates. *)
Definition FormData := list (string * FormValue).

Definition FormData_append (fd : FormData) (name : string) (v : FormValue)
  : FormData := fd ++ [(name, v)].

#[local] Set Warnings "-register-all".

(** The values a request body ([any]) or a decoded response body can be.
    Numbers are the integral ones plus NaN; a fractional number behaves as
    any non-zero one wherever the gateway looks at it. An object lists its
    own properties in creation order. *)
Inductive JsValue :=
| JUndefined
| JNull
| JBool (b : bool)
| JNum (z : Z)
| JNaN
| JStr (s : string)
| JArr (items : list JsValue)
| JObj (fields : list (string * JsValue))
| JFormData (fd : FormData).

(** ToBoolean: what [if (v)], [v && _] and [v || _] test. *)
Definition truthy (v : JsValue) : bool :=
  match v with
  | JUndefined | JNull | JNaN => false
  | JBool b => b
  | JNum z => negb (z =? 0)%Z
  | JStr s => negb (s =? "")
  | JArr _ | JObj _ | JFormData _ => true
  end.

(** [a || b] *)
Definition js_or (a b : JsValue) : JsValue := if truthy a then a else b.

(** [v instanceof FormData] *)
Definition instanceof_FormData (v : JsValue) : bool :=
  match v with JFormData _ => true | _ => false end.

(** [v !== undefined && v !== null] *)
Definition not_nullish (v : JsValue) : bool :=
  match v with JUndefined | JNull => false | _ => true end.

(** ** Objects used as string-keyed records *)

Section JsObject.
Variable V : Type.

(** Own properties in creation order; the keys are pairwise distinct. *)
Definition JsObject := list (string * V).

Fixpoint obj_get (o : JsObject) (k : string) : option V :=
  match o with
  | [] => None
  | (k', v) :: rest => if k' =? k then Some v else obj_get rest k
  end.

(** [o[k] = v]: an existing property keeps its place, a new one goes
    last. *)
Fixpoint obj_set (o : JsObject) (k : string) (v : V) : JsObject :=
  match o with
  | [] => [(k, v)]
  | (k', v') :: rest =>
      if k' =? k then (k', v) :: rest else (k', v') :: obj_set rest k v
  end.

(** Value of a string of decimal digits, [None] on any other character. *)
Fixpoint digits_value (s : string) (acc : N) : option N :=
  match s with
  | EmptyString => Some acc
  | String c rest =>
      let n := N_of_ascii c in
      if ((48 <=? n) && (n <=? 57))%N
      then digits_value rest (acc * 10 + (n - 48))%N
      else None
  end.

(** A key is an array index when it is the canonical decimal form of an
    integer in 0 .. 2^32 - 2. *)
Definition array_index (k : string) : option N :=
  match k with
  | EmptyString => None
  | String c rest =>
      if (c =? "0")%char && negb (rest =? "") then None
      else match digits_value k 0 with
           | Some n => if (n <=? 4294967294)%N then Some n else None
           | None => None
           end
  end.

Definition is_array_index (k : string) : bool :=
  match array_index k with Some _ => true | None => false end.

Definition index_of (k : string) : N :=
  match array_index k with Some n => n | None => 0%N end.

Fixpoint insert_by_index (e : string * V) (l : list (string * V))
  : list (string * V) :=
  match l with
  | [] => [e]
  | e' :: rest =>
      if (index_of (fst e) <=? index_of (fst e'))%N
      then e :: l
      else e' :: insert_by_index e rest
  end.

Definition sort_by_index (l : list (string * V)) : list (string * V) :=
  fold_right insert_by_index [] l.

(** [Object.entries(o)] (OrdinaryOwnPropertyKeys): the array-index keys
    in ascending numeric order, then the other keys in creation order. *)
Definition Object_entries (o : JsObject) : list (string * V) :=
  sort_by_index (filter (fun e => is_array_index (fst e)) o)
  ++ filter (fun e => negb (is_array_index (fst e))) o.

(** [{...base, ...extra}] on top of an object literal [base]. *)
Definition obj_spread (base extra : JsObject) : JsObject :=
  fold_left (fun acc e => obj_set acc (fst e) (snd e))
            (Object_entries extra) base.
End JsObject.

Arguments obj_get {V} o k.
Arguments obj_set {V} o k v.
Arguments Object_entries {V} o.
Arguments obj_spread {V} base extra.
Arguments sort_by_index {V} l.
Arguments insert_by_index {V} e l.

(** [data?.message]: only an object can own a [message] property; the
    prototypes of strings, numbers, booleans and arrays have none. *)
Definition optional_message (data : JsValue) : JsValue :=
  match data with
  | JObj fields =>
      match obj_get fields "message" with
      | Some v => v
      | None => JUndefined
      end
  | _ => JUndefined
  end.

(** ** Strings *)

(** [hay.includes(needle)] *)
Fixpoint includes (needle hay : string) : bool :=
  String.prefix needle hay
  || match hay with
     | EmptyString => false
     | String _ rest => includes needle rest
     end.

Definition hex_digit (n : N) : ascii :=
  ascii_of_N (if (n <? 10)%N then 48 + n else 55 + n)%N.

(** One byte of the application/x-www-form-urlencoded serializer: the
    alphanumerics and [* - . _] stay, a space becomes [+], every other byte
    is percent-encoded in upper-case hexadecimal. A string stands for its
    UTF-8 bytes. *)
Definition urlencode_byte (c : ascii) : string :=
  let n := N_of_ascii c in
  if (((48 <=? n) && (n <=? 57)) || ((65 <=? n) && (n <=? 90))
      || ((97 <=? n) && (n <=? 122))
      || (n =? 42) || (n =? 45) || (n =? 46) || (n =? 95))%N
  then String c EmptyString
  else if (n =? 32)%N then "+"
  else String "%" (String (hex_digit (n / 16)) (String (hex_digit (n mod 16))
                                                       EmptyString)).

Fixpoint urlencode (s : string) : string :=
  match s with
  | EmptyString => EmptyString
  | String c rest => (urlencode_byte c ++ urlencode rest)%string
  end.

(** ** URLSearchParams *)

Definition URLSearchParams := list (string * string).

Definition URLSearchParams_append (q : URLSearchParams) (k v : string)
  : URLSearchParams := q ++ [(k, v)].

Definition URLSearchParams_toString (q : URLSearchParams) : string :=
  String.concat "&"
    (map (fun kv => (urlencode (fst kv) ++ "=" ++ urlencode (snd kv))%string) q).

(** A query-parameter value as the caller can pass it at run time: the
    declared [string], or the [undefined] and [null] the gateway guards
    against. *)
Inductive ParamValue :=
| PUndefined
| PNull
| PString (s : string).

(** The string [URLSearchParams.append] would store for a value. *)
Definition ParamValue_toString (v : ParamValue) : string :=
  match v with
  | PUndefined => "undefined"
  | PNull => "null"
  | PString s => s
  end.

(** [value !== undefined && value !== null] *)
Definition param_defined (v : ParamValue) : bool :=
  match v with PUndefined | PNull => false | PString _ => true end.

(** ** The platform: requests, responses, thrown values *)

Inductive Method := GET | POST | PUT | DELETE.

(** What a rejected promise or a [throw] carries: an [Error] with its
    message, or any other value. *)
Inductive JsThrown :=
| ThrownError (message : string)
| ThrownValue (v : JsValue).

(** How an awaited call ends. *)
Inductive Completion (A : Type) :=
| Normal (a : A)
| Throw (e : JsThrown).
Arguments Normal {A} a.
Arguments Throw {A} e.

(** The body handed to [fetch]: the [FormData] itself, or a text. *)
Inductive BodyInit :=
| BodyFormData (fd : FormData)
| BodyText (s : string).

Module RequestInit.
Record t := mk {
  method : Method;
  headers : option (JsObject string);
  credentials : string;
  body : option BodyInit
}.
End RequestInit.

(** A [Response] as the gateway reads it: [headers.get('content-type')]
    ([None] for null), and what awaiting [json()], [text()] and [blob()]
    gives. *)
Module Response.
Record t := mk {
  status : Z;
  statusText : string;
  content_type : option string;
  json : Completion JsValue;
  text : Completion string;
  blob : Completion Blob
}.

(** [response.ok]: the status is in the range 200 to 299. *)
Definition ok (r : t) : bool := ((200 <=? status r) && (status r <=? 299))%Z.
End Response.

(** ** The host: network log, console, object URLs, document, downloads *)

Record Anchor := mkAnchor {
  anchor_id : nat;
  href : string;
  download : string
}.

(** A download started by clicking an anchor that has a [download]
    attribute: the file name offered and the content behind its [href]. *)
Record SaveRequest := mkSave {
  save_filename : string;
  save_href : string;
  save_content : option Blob
}.

Record Host := mkHost {
  fetched : list (string * RequestInit.t);
  console_errors : list (string * JsThrown);
  next_id : nat;
  object_urls : list (string * Blob);
  body_children : list Anchor;
  saves : list SaveRequest
}.

Definition M (A : Type) : Type := Host -> Host * Completion A.

Definition ret {A} (a : A) : M A := fun h => (h, Normal a).

Definition throw {A} (e : JsThrown) : M A := fun h => (h, Throw e).

Definition bind {A B} (m : M A) (k : A -> M B) : M B :=
  fun h =>
    match m h with
    | (h', Normal a) => k a h'
    | (h', Throw e) => (h', Throw e)
    end.

(** [try { m } catch (error) { handler error }] *)
Definition try_catch {A} (m : M A) (handler : JsThrown -> M A) : M A :=
  fun h =>
    match m h with
    | (h', Normal a) => (h', Normal a)
    | (h', Throw e) => handler e h'
    end.

(** [await p] for a promise that settles as [c]. *)
Definition await {A} (c : Completion A) : M A := fun h => (h, c).

Notation "x <- m ;; k" := (bind m (fun x => k))
  (at level 61, m at next level, right associativity).
Notation "m ;;; k" := (bind m (fun _ => k))
  (at level 61, right associativity).

Definition console_error (label : string) (e : JsThrown) : M unit :=
  fun h =>
    (mkHost (fetched h) (console_errors h ++ [(label, e)]) (next_id h)
            (object_urls h) (body_children h) (saves h),
     Normal tt).

Definition object_url_of (n : nat) : string :=
  ("blob:" ++ NilEmpty.string_of_uint (Nat.to_uint n))%string.

(** [window.URL.createObjectURL(blob)] *)
Definition createObjectURL (b : Blob) : M string :=
  fun h =>
    let u := object_url_of (next_id h) in
    (mkHost (fetched h) (console_errors h) (S (next_id h))
            ((u, b) :: object_urls h) (body_children h) (saves h),
     Normal u).

(** [window.URL.revokeObjectURL(url)] *)
Definition revokeObjectURL (u : string) : M unit :=
  fun h =>
    (mkHost (fetched h) (console_errors h) (next_id h)
            (filter (fun e => negb (fst e =? u)) (object_urls h))
            (body_children h) (saves h),
     Normal tt).

(** [document.createElement('a')] *)
Definition createElement_a : M Anchor :=
  fun h =>
    (mkHost (fetched h) (console_errors h) (S (next_id h))
            (object_urls h) (body_children h) (saves h),
     Normal (mkAnchor (next_id h) "" "")).

(** [document.body.appendChild(link)] *)
Definition appendChild (a : Anchor) : M unit :=
  fun h =>
    (mkHost (fetched h) (console_errors h) (next_id h) (object_urls h)
            (body_children h ++ [a]) (saves h),
     Normal tt).

(** [document.body.removeChild(link)] *)
Definition removeChild (a : Anchor) : M unit :=
  fun h =>
    (mkHost (fetched h) (console_errors h) (next_id h) (object_urls h)
            (filter (fun c => negb (anchor_id c =? anchor_id a)%nat)
                    (body_children h))
            (saves h),
     Normal tt).

(** [link.click()] on an anchor with a [download] attribute: the host is
    asked to save what the [href] points to under that name. *)
Definition click (a : Anchor) : M unit :=
  fun h =>
    (mkHost (fetched h) (console_errors h) (next_id h) (object_urls h)
            (body_children h)
            (saves h ++ [mkSave (download a) (href a)
                                (obj_get (object_urls h) (href a))]),
     Normal tt).

(** ** The gateway (src/api.ts) *)

(** [ApiResponse<T>]; a property that is missing or [undefined] reads as
    [JUndefined]. *)
Record ApiResponse := mkApiResponse {
  data : JsValue;
  error : JsValue;
  status : Z
}.

Module RequestOptions.
Record t := mk {
  method : Method;
  headers : option (JsObject string);
  body : JsValue;
  params : option (JsObject ParamValue)
}.
End RequestOptions.

Section Gateway.
(** [process.env.REACT_APP_API_URL], [None] when unset. *)
Variable REACT_APP_API_URL : option string.
(** [JSON.stringify] on a [JsValue], which it always turns into a text:
    the type holds no BigInt, function or symbol and no object that refers
    to itself. The bodies on which [JSON.stringify] throws or yields
    [undefined] are those of [Body], with [apiRequest_any], below. *)
Variable JSON_stringify : JsValue -> string.
(** The collaborator behind [fetch]: how the promise for a request
    settles. *)
Variable network : string -> RequestInit.t -> Completion Response.t.

Definition API_BASE_URL : string :=
  match REACT_APP_API_URL with
  | Some u => if u =? "" then "http://localhost:8080/tdg/api" else u
  | None => "http://localhost:8080/tdg/api"
  end.

(** [fetch(url, init)]: the request goes out once and the promise
    settles as the collaborator decides. *)
Definition fetch (url : string) (init : RequestInit.t) : M Response.t :=
  fun h =>
    (mkHost (fetched h ++ [(url, init)]) (console_errors h) (next_id h)
            (object_urls h) (body_children h) (saves h),
     network url init).

(** The [forEach] over [Object.entries(params)] that fills
    [queryParams]. *)
Definition queryParams (params : JsObject ParamValue) : URLSearchParams :=
  fold_left
    (fun q kv =>
       if param_defined (snd kv)
       then URLSearchParams_append q (fst kv) (ParamValue_toString (snd kv))
       else q)
    (Object_entries params) [].

(** The URL with its query string: the same text in [apiRequest]
    (lines 36-48) and in [downloadFile] (lines 212-224). *)
Definition build_url (endpoint : string)
           (params : option (JsObject ParamValue)) : string :=
  let url := (API_BASE_URL ++ endpoint)%string in
  match params with
  | Some p =>
      let queryString := URLSearchParams_toString (queryParams p) in
      if queryString =? "" then url else (url ++ "?" ++ queryString)%string
  | None => url
  end.

(** [requestHeaders] as it stands when [fetch] is called. *)
Definition requestHeaders (options : RequestOptions.t) : JsObject string :=
  let headers :=
    match RequestOptions.headers options with Some h => h | None => [] end in
  let body := RequestOptions.body options in
  let requestHeaders := obj_spread [("Accept", "application/json")] headers in
  if truthy body && negb (instanceof_FormData body)
  then obj_set requestHeaders "Content-Type" "application/json"
  else requestHeaders.

(** [requestOptions] as it stands when [fetch] is called. *)
Definition requestOptions (options : RequestOptions.t) : RequestInit.t :=
  let body := RequestOptions.body options in
  RequestInit.mk
    (RequestOptions.method options)
    (Some (requestHeaders options))
    "include"
    (if truthy body
     then match body with
          | JFormData fd => Some (BodyFormData fd)
          | _ => Some (BodyText (JSON_stringify body))
          end
     else None).

(** [contentType && contentType.includes('application/json')] *)
Definition isJson (response : Response.t) : bool :=
  match Response.content_type response with
  | Some contentType =>
      negb (contentType =? "") && includes "application/json" contentType
  | None => false
  end.

(** The parsing of the response data (lines 85-92). *)
Definition parse_data (response : Response.t) : M JsValue :=
  if isJson response then await (Response.json response)
  else if negb (Response.status response =? 204)%Z
       then s <- await (Response.text response) ;; ret (JStr s)
       else ret JNull.

(** [error instanceof Error ? error.message : 'Network error'] *)
Definition error_message (e : JsThrown) : string :=
  match e with
  | ThrownError message => message
  | ThrownValue _ => "Network error"
  end.

Definition apiRequest (endpoint : string) (options : RequestOptions.t)
  : M ApiResponse :=
  let url := build_url endpoint (RequestOptions.params options) in
  try_catch
    (response <- fetch url (requestOptions options) ;;
     data <- parse_data response ;;
     ret (mkApiResponse
            (if Response.ok response then data else JUndefined)
            (if Response.ok response then JUndefined
             else js_or (optional_message data)
                        (JStr (Response.statusText response)))
            (Response.status response)))
    (fun e =>
       console_error "API request failed:" e ;;;
       ret (mkApiResponse JUndefined (JStr (error_message e)) 0)).

Definition get (endpoint : string) (params : option (JsObject ParamValue))
  : M ApiResponse :=
  apiRequest endpoint (RequestOptions.mk GET None JUndefined params).

Definition post (endpoint : string) (data : JsValue)
           (params : option (JsObject ParamValue)) : M ApiResponse :=
  apiRequest endpoint (RequestOptions.mk POST None data params).

Definition put (endpoint : string) (data : JsValue) : M ApiResponse :=
  apiRequest endpoint (RequestOptions.mk PUT None data None).

Definition del (endpoint : string) : M ApiResponse :=
  apiRequest endpoint (RequestOptions.mk DELETE None JUndefined None).

(** The entries [uploadFile] appends to its [FormData]. [fieldName] is
    [None] when the caller leaves it out. *)
Definition upload_formData (file : File) (fieldName : option string)
           (additionalData : option (JsObject string)) : FormData :=
  let fieldName := match fieldName with Some n => n | None => "file" end in
  let formData := FormData_append [] fieldName (FVFile file) in
  match additionalData with
  | Some extra =>
      fold_left
        (fun fd kv => FormData_append fd (fst kv) (FVString (snd kv)))
        (Object_entries extra) formData
  | None => formData
  end.

Definition uploadFile (endpoint : string) (file : File)
           (fieldName : option string)
           (additionalData : option (JsObject string)) : M ApiResponse :=
  apiRequest endpoint
    (RequestOptions.mk POST None
       (JFormData (upload_formData file fieldName additionalData)) None).

(** The anchor-click sequence shared, as the same text, by
    [downloadFile] (lines 236-243) and [downloadBatchResults]
    (lines 49-56 of src/batchApi.ts). *)
Definition save_as (blob : Blob) (filename : string) : M unit :=
  downloadUrl <- createObjectURL blob ;;
  link <- createElement_a ;;
  let link := mkAnchor (anchor_id link) downloadUrl (download link) in
  let link := mkAnchor (anchor_id link) (href link) filename in
  appendChild link ;;;
  click link ;;;
  removeChild link ;;;
  revokeObjectURL downloadUrl.

Definition downloadFile (endpoint filename : string)
           (params : option (JsObject ParamValue)) : M bool :=
  try_catch
    (let url := build_url endpoint params in
     response <- fetch url (RequestInit.mk GET None "include" None) ;;
     if negb (Response.ok response)
     then throw (ThrownError
                   ("Download failed: " ++ Response.statusText response)%string)
     else
       blob <- await (Response.blob response) ;;
       save_as blob filename ;;;
       ret true)
    (fun e => console_error "File download failed:" e ;;; ret false).

(** src/batchApi.ts *)
Definition downloadBatchResults (batchId : string) : M bool :=
  let filename := ("batch_" ++ batchId ++ ".zip")%string in
  try_catch
    (response <- fetch ("/api/batch/download/" ++ batchId)%string
                       (RequestInit.mk GET None "include" None) ;;
     if negb (Response.ok response)
     then throw (ThrownError
                   ("Download failed: " ++ Response.statusText response)%string)
     else
       blob <- await (Response.blob response) ;;
       save_as blob filename ;;;
       ret true)
    (fun e => console_error "Batch download failed:" e ;;; ret false).
End Gateway.


(** ** The gateway on a body of any kind *)

(** A request body is typed [any]. Beyond the values of [JsValue] there
    are those [JSON.stringify] does not turn into a text: a BigInt, a
    function, a symbol, an object that holds one of them, refers to itself
    or has a [toJSON] that throws. Such a value is known here by the two
    things the gateway asks of it: whether it is truthy, and what
    [JSON.stringify] makes of it, a text, [undefined] ([None]) or a thrown
    TypeError. It is never a [FormData]. *)
Inductive Body :=
| BodyValue (v : JsValue)
| BodyOther (is_truthy : bool) (stringified : Completion (option string)).

Module AnyOptions.
Record t := mk {
  method : Method;
  headers : option (JsObject string);
  body : Body;
  params : option (JsObject ParamValue)
}.
End AnyOptions.

Section GatewayAny.
Variable REACT_APP_API_URL : option string.
Variable JSON_stringify : JsValue -> string.
Variable network : string -> RequestInit.t -> Completion Response.t.

(** [if (body)] *)
Definition body_truthy (body : Body) : bool :=
  match body with
  | BodyValue v => truthy v
  | BodyOther is_truthy _ => is_truthy
  end.

(** [body instanceof FormData] *)
Definition body_is_form (body : Body) : bool :=
  match body with
  | BodyValue v => instanceof_FormData v
  | BodyOther _ _ => false
  end.

(** [JSON.stringify(body)] *)
Definition stringify_body (body : Body) : Completion (option string) :=
  match body with
  | BodyValue v => Normal (Some (JSON_stringify v))
  | BodyOther _ stringified => stringified
  end.

(** [requestHeaders] as it stands when [fetch] is called (lines 50-59). *)
Definition requestHeaders_any (options : AnyOptions.t) : JsObject string :=
  let headers :=
    match AnyOptions.headers options with Some h => h | None => [] end in
  let body := AnyOptions.body options in
  let requestHeaders := obj_spread [("Accept", "application/json")] headers in
  if body_truthy body && negb (body_is_form body)
  then obj_set requestHeaders "Content-Type" "application/json"
  else requestHeaders.

(** [requestOptions.body] (lines 68-75), worked out before the [try]: a
    [JSON.stringify] that throws ends the call there. *)
Definition requestBody (options : AnyOptions.t)
  : Completion (option BodyInit) :=
  let body := AnyOptions.body options in
  if body_truthy body
  then match body with
       | BodyValue (JFormData fd) => Normal (Some (BodyFormData fd))
       | _ =>
           match stringify_body body with
           | Normal (Some text) => Normal (Some (BodyText text))
           | Normal None => Normal None
           | Throw e => Throw e
           end
       end
  else Normal None.

(** The [try] and its [catch] (lines 77-107), for the request handed to
    [fetch]. *)
Definition respond (url : string) (init : RequestInit.t) : M ApiResponse :=
  try_catch
    (response <- fetch network url init ;;
     data <- parse_data response ;;
     ret (mkApiResponse
            (if Response.ok response then data else JUndefined)
            (if Response.ok response then JUndefined
             else js_or (optional_message data)
                        (JStr (Response.statusText response)))
            (Response.status response)))
    (fun e =>
       console_error "API request failed:" e ;;;
       ret (mkApiResponse JUndefined (JStr (error_message e)) 0)).

(** [apiRequest] on a body of any kind. On a [JsValue] it is
    [apiRequest] itself. *)
Definition apiRequest_any (endpoint : string) (options : AnyOptions.t)
  : M ApiResponse :=
  let url := build_url REACT_APP_API_URL endpoint (AnyOptions.params options) in
  body <- await (requestBody options) ;;
  respond url
    (RequestInit.mk (AnyOptions.method options)
                    (Some (requestHeaders_any options)) "include" body).

(** [post] and [put] on data of any kind. *)
Definition post_any (endpoint : string) (data : Body)
           (params : option (JsObject ParamValue)) : M ApiResponse :=
  apiRequest_any endpoint (AnyOptions.mk POST None data params).

Definition put_any (endpoint : string) (data : Body) : M ApiResponse :=
  apiRequest_any endpoint (AnyOptions.mk PUT None data None).
End GatewayAny.

(** ** The endpoint modules built on the gateway *)



(** ['CSV' | 'JSON' | 'XML'] *)
Inductive OutputFormat := CSV | JSON | XML.

Definition OutputFormat_text (f : OutputFormat) : string :=
  match f with CSV => "CSV" | JSON => "JSON" | XML => "XML" end.




(** [errorData.message]: reading a property of [undefined] or [null]
    throws a TypeError. *)
Definition member_message (errorData : JsValue) : Completion JsValue :=
  match errorData with
  | JUndefined | JNull =>
      Throw (ThrownError "Cannot read properties of null (reading 'message')")
  | _ => Normal (optional_message errorData)
  end.

(** [ApiResponse<Blob>], the Result of [generateData]. *)
Record ApiResponseBlob := mkApiResponseBlob {
  blob_data : option Blob;
  blob_error : JsValue;
  blob_status : Z
}.

Module GenerationRequest.
Record t := mk {
  templateId : Z;
  rowCount : option Z;
  outputFormat : option OutputFormat;
  filename : option string
}.
End GenerationRequest.

Module TemplateListParams.
Record t := mk {
  page : option Z;
  size : option Z;
  sort : option string
}.
End TemplateListParams.

Module ScheduleListParams.
Record t := mk {
  page : option Z;
  size : option Z;
  sort : option string;
  status : option string
}.
End ScheduleListParams.

Section Endpoints.
Variable REACT_APP_API_URL : option string.
Variable JSON_stringify : JsValue -> string.
Variable network : string -> RequestInit.t -> Completion Response.t.
(** The exponent form of [n.toString()], for the numbers that print in
    it. *)
Variable Number_exponential : Z -> string.

(** The error message of a response that is not ok, as [generateData],
    [checkAnalysisStatus] and [getExtractedVariables] each work it out:
    [statusText], replaced inside a [try] whose [catch] is empty by
    [errorData.message || errorMessage]. *)
Definition errorMessage_of (response : Response.t) : M JsValue :=
  let errorMessage := JStr (Response.statusText response) in
  try_catch
    (errorData <- await (Response.json response) ;;
     message <- await (member_message errorData) ;;
     ret (js_or message errorMessage))
    (fun _ => ret errorMessage).

(** generationApi: the request object goes to [JSON.stringify] as it is.
    The call to [fetch] is not inside a [try], and its options leave
    [credentials] out, which the platform reads as same-origin. *)
Definition generateData (request : JsValue) : M ApiResponseBlob :=
  response <- fetch network "/api/generate"
                (RequestInit.mk POST
                   (Some [("Content-Type", "application/json")])
                   "same-origin"
                   (Some (BodyText (JSON_stringify request)))) ;;
  if negb (Response.ok response)
  then
    errorMessage <- errorMessage_of response ;;
    ret (mkApiResponseBlob None errorMessage (Response.status response))
  else
    blob <- await (Response.blob response) ;;
    ret (mkApiResponseBlob (Some blob) JUndefined (Response.status response)).



(** [rowCount] and [outputFormat] are [None] when the caller leaves them
    out. *)
Definition generateDataPreview (templateId : Z) (rowCount : option Z)
           (outputFormat : option OutputFormat) : M ApiResponse :=
  let rowCount := match rowCount with Some n => n | None => 5%Z end in
  let outputFormat :=
    match outputFormat with Some f => f | None => CSV end in
  post REACT_APP_API_URL JSON_stringify network "/generate/preview"
       (JObj [("templateId", JNum templateId); ("rowCount", JNum rowCount);
              ("outputFormat", JStr (OutputFormat_text outputFormat))])
       None.



Definition searchTemplates (searchTerm : string) : M ApiResponse :=
  get REACT_APP_API_URL JSON_stringify network "/templates/search"
      (Some [("name", PString searchTerm)]).




(** pdfApi *)
Definition analyzePdf (file : File) : M ApiResponse :=
  uploadFile REACT_APP_API_URL JSON_stringify network "/pdf/analyze" file
             None None.

Definition checkAnalysisStatus (analysisId : string) : M ApiResponse :=
  try_catch
    (response <- fetch network ("/api/pdf/status/" ++ analysisId)%string
                   (RequestInit.mk GET None "include" None) ;;
     if negb (Response.ok response)
     then
       errorMessage <- errorMessage_of response ;;
       ret (mkApiResponse JUndefined errorMessage (Response.status response))
     else
       data <- await (Response.json response) ;;
       ret (mkApiResponse data JUndefined (Response.status response)))
    (fun e =>
       console_error "Error checking PDF analysis status:" e ;;;
       ret (mkApiResponse JUndefined (JStr (error_message e)) 0)).

Definition getExtractedVariables (analysisId : string) : M ApiResponse :=
  try_catch
    (response <- fetch network ("/api/pdf/variables/" ++ analysisId)%string
                   (RequestInit.mk GET None "include" None) ;;
     if negb (Response.ok response)
     then
       errorMessage <- errorMessage_of response ;;
       ret (mkApiResponse JUndefined errorMessage (Response.status response))
     else
       data <- await (Response.json response) ;;
       ret (mkApiResponse data JUndefined (Response.status response)))
    (fun e =>
       console_error "Error getting extracted variables:" e ;;;
       ret (mkApiResponse JUndefined (JStr (error_message e)) 0)).
End Endpoints.

(** ** Vocabulary of the properties *)

(** The host after the one [fetch] of a call. *)
Definition sent (h : Host) (url : string) (init : RequestInit.t) : Host :=
  mkHost (fetched h ++ [(url, init)]) (console_errors h) (next_id h)
         (object_urls h) (body_children h) (saves h).

(** The host after the [console.error] of a [catch]. *)
Definition logged (h : Host) (label : string) (e : JsThrown) : Host :=
  mkHost (fetched h) (console_errors h ++ [(label, e)]) (next_id h)
         (object_urls h) (body_children h) (saves h).

(** What the parsing step of [apiRequest] yields, as a completion. *)
Definition decoded (response : Response.t) : Completion JsValue :=
  if isJson response then Response.json response
  else if negb (Response.status response =? 204)%Z
       then match Response.text response with
            | Normal s => Normal (JStr s)
            | Throw e => Throw e
            end
       else Normal JNull.

(** The conventional success range of status codes. *)
Definition in_ok_range (z : Z) : Prop := (200 <= z <= 299)%Z.

(** A payload or an error message is present in a Result when the
    property holds a value: neither [undefined] nor [null]. *)
Definition present (v : JsValue) : Prop := not_nullish v = true.

(** A response in the success range whose decoded value is null or
    undefined: the body was not read (a 204 that does not declare JSON),
    or it was read and is the JSON text null. This is not a test of the
    response carrying no body: an empty text body decodes to the empty
    string. *)
Definition empty_success (c : Completion Response.t) : bool :=
  match c with
  | Normal response =>
      Response.ok response
      && match decoded response with
         | Normal d => negb (not_nullish d)
         | Throw _ => false
         end
  | Throw _ => false
  end.

(** The entries of a parameter list that hold a string, in the order of
    the list. *)
Fixpoint kept_entries (l : list (string * ParamValue)) : URLSearchParams :=
  match l with
  | [] => []
  | (k, PString s) :: rest => (k, s) :: kept_entries rest
  | _ :: rest => kept_entries rest
  end.

(** [headers = {}] when the caller passes none. *)
Definition caller_headers (o : RequestOptions.t) : JsObject string :=
  match RequestOptions.headers o with Some h => h | None => [] end.

(** The same call without its body. *)
Definition without_body (o : RequestOptions.t) : RequestOptions.t :=
  RequestOptions.mk (RequestOptions.method o) (RequestOptions.headers o)
                    JUndefined (RequestOptions.params o).

(** The body the two download operations share, up to the label of the
    console message: [downloadFile] runs it on the URL it builds, and
    [downloadBatchResults] on the batch URL. *)
Definition download_run
           (network : string -> RequestInit.t -> Completion Response.t)
           (label url filename : string) : M bool :=
  try_catch
    (response <- fetch network url (RequestInit.mk GET None "include" None) ;;
     if negb (Response.ok response)
     then throw (ThrownError
                   ("Download failed: " ++ Response.statusText response)%string)
     else
       blob <- await (Response.blob response) ;;
       save_as blob filename ;;;
       ret true)
    (fun e => console_error label e ;;; ret false).

(** What a download operation owes its caller, for the request it makes
    and the file name it saves under: it always resolves to a boolean; on
    a response in the success range whose body can be read as a blob it
    makes that one request, asks the host for exactly one save, of that
    blob under that name, and resolves to true; when the request is
    rejected or the status is outside the range it resolves to false and
    saves nothing. *)
Definition download_contract
           (network : string -> RequestInit.t -> Completion Response.t)
           (run : M bool) (url filename : string) : Prop :=
  let init := RequestInit.mk GET None "include" None in
  forall h,
    (exists h' b, run h = (h', Normal b)) /\
    (forall response blob,
        network url init = Normal response ->
        in_ok_range (Response.status response) ->
        Response.blob response = Normal blob ->
        exists h',
          run h = (h', Normal true) /\
          fetched h' = fetched h ++ [(url, init)] /\
          saves h' = saves h ++ [mkSave filename (object_url_of (next_id h))
                                        (Some blob)]) /\
    (forall e,
        network url init = Throw e ->
        exists h', run h = (h', Normal false) /\ saves h' = saves h) /\
    (forall response,
        network url init = Normal response ->
        ~ in_ok_range (Response.status response) ->
        exists h', run h = (h', Normal false) /\ saves h' = saves h).

(** How often a character occurs in a string. *)
Fixpoint occurrences (c : ascii) (s : string) : nat :=
  match s with
  | EmptyString => 0
  | String c' rest =>
      (if (c' =? c)%char then 1 else 0) + occurrences c rest
  end.

(** The characters that structure a URL's query: the separators of its
    entries, the marks that open the query and the fragment, and the
    space. *)
Definition reserved : list ascii := ["&"; "="; "?"; "#"; " "]%char.

(** The identifiers in use in a host lie below its counter: the anchors
    in the document and the object URLs still registered. *)
Definition fresh_host (h : Host) : Prop :=
  (forall a, In a (body_children h) -> anchor_id a < next_id h)
  /\ (forall u b, In (u, b) (object_urls h) ->
                  exists n, n < next_id h /\ u = object_url_of n).

(** The error message the endpoint modules take from a response that is
    not ok: the truthy [message] of a body that parses as JSON, and
    [statusText] in every other case. *)
Definition errorMessage_value (response : Response.t) : JsValue :=
  match Response.json response with
  | Normal d => js_or (optional_message d) (JStr (Response.statusText response))
  | Throw _ => JStr (Response.statusText response)
  end.

(** The body [checkAnalysisStatus] and [getExtractedVariables] share, up
    to the URL and the label of the console message. *)
Definition status_query
           (network : string -> RequestInit.t -> Completion Response.t)
           (label url : string) : M ApiResponse :=
  try_catch
    (response <- fetch network url (RequestInit.mk GET None "include" None) ;;
     if negb (Response.ok response)
     then
       errorMessage <- errorMessage_of response ;;
       ret (mkApiResponse JUndefined errorMessage (Response.status response))
     else
       data <- await (Response.json response) ;;
       ret (mkApiResponse data JUndefined (Response.status response)))
    (fun e =>
       console_error label e ;;;
       ret (mkApiResponse JUndefined (JStr (error_message e)) 0)).

(** A download that succeeds cleans up after itself: on a host whose
    identifiers are fresh, the anchor it added is removed again and the
    object URL it created is revoked, nothing is logged, and the
    identifiers stay fresh. *)
Definition download_tidy
           (network : string -> RequestInit.t -> Completion Response.t)
           (run : M bool) (url : string) : Prop :=
  forall h response blob,
    fresh_host h ->
    network url (RequestInit.mk GET None "include" None) = Normal response ->
    in_ok_range (Response.status response) ->
    Response.blob response = Normal blob ->
    exists h',
      run h = (h', Normal true)
      /\ body_children h' = body_children h
      /\ object_urls h' = object_urls h
      /\ console_errors h' = console_errors h
      /\ fresh_host h'.

(** A download that fails says why on the console, once, and does
    nothing else after its request: the rejection of [fetch], an [Error]
    naming the [statusText] of a response that is not ok, or the failure
    to read the blob. *)
Definition download_reports
           (network : string -> RequestInit.t -> Completion Response.t)
           (run : M bool) (label url : string) : Prop :=
  let init := RequestInit.mk GET None "include" None in
  forall h,
    (forall e,
        network url init = Throw e ->
        run h = (logged (sent h url init) label e, Normal false))
    /\ (forall response,
           network url init = Normal response ->
           ~ in_ok_range (Response.status response) ->
           run h
           = (logged (sent h url init) label
                     (ThrownError ("Download failed: "
                                   ++ Response.statusText response)%string),
              Normal false))
    /\ (forall response e,
           network url init = Normal response ->
           in_ok_range (Response.status response) ->
           Response.blob response = Throw e ->
           run h = (logged (sent h url init) label e, Normal false)).










(** The request of a [get]: no body, and Accept as its only header. *)
Definition get_init : RequestInit.t :=
  RequestInit.mk GET (Some [("Accept", "application/json")]) "include" None.

(** The two status queries of pdfApi, each with the URL it asks. *)
Definition pdf_query
           (network : string -> RequestInit.t -> Completion Response.t)
           (analysisId : string) (run : M ApiResponse) (url : string) : Prop :=
  (run = checkAnalysisStatus network analysisId
   /\ url = ("/api/pdf/status/" ++ analysisId)%string)
  \/ (run = getExtractedVariables network analysisId
      /\ url = ("/api/pdf/variables/" ++ analysisId)%string).

(** The request of a status query and of a download: a GET with
    credentials and nothing else. *)
Definition plain_get : RequestInit.t := RequestInit.mk GET None "include" None.

(** The request of [generateData]. *)
Definition generate_init (stringify : JsValue -> string) (request : JsValue)
  : RequestInit.t :=
  RequestInit.mk POST (Some [("Content-Type", "application/json")])
                 "same-origin" (Some (BodyText (stringify request))).

(** The response carries no body: its text is empty. *)
Definition carries_no_body (response : Response.t) : Prop :=
  Response.text response = Normal "".

(** Stub collaborators and hosts for concrete runs. *)
Definition host0 : Host := mkHost [] [] 0 [] [] [].

Definition stub_stringify (v : JsValue) : string := "<json>".

Definition stub_network (c : Completion Response.t)
  : string -> RequestInit.t -> Completion Response.t := fun _ _ => c.

Definition json_response (code : Z) (reason : string) (v : JsValue)
  : Response.t :=
  Response.mk code reason (Some "application/json; charset=utf-8")
              (Normal v) (Normal "<raw>") (Normal (mkBlob "<raw>")).

Definition text_response (code : Z) (reason : string) (ctype : option string)
           (body : string) : Response.t :=
  Response.mk code reason ctype
              (Throw (ThrownError "Unexpected token in JSON"))
              (Normal body) (Normal (mkBlob body)).

(** A 204 that still declares JSON: there is no body to parse. *)
Definition no_content_json : Response.t :=
  Response.mk 204 "No Content" (Some "application/json")
              (Throw (ThrownError "Unexpected end of JSON input"))
              (Normal "") (Normal (mkBlob "")).

Definition get_options : RequestOptions.t :=
  RequestOptions.mk GET None JUndefined None.

(** The empty page of the template list, and the call that asks for it. *)
Definition templates_page : JsValue :=
  JObj [("content", JArr []); ("totalElements", JNum 0); ("totalPages", JNum 0);
        ("size", JNum 10); ("number", JNum 0)].

Definition list_options : RequestOptions.t :=
  RequestOptions.mk GET None JUndefined
                    (Some [("page", PString "0"); ("size", PString "10")]).

(** A rejected schedule. *)
Definition name_required : Response.t :=
  json_response 400 "Bad Request" (JObj [("message", JStr "name is required")]).

Definition schedule_options : RequestOptions.t :=
  RequestOptions.mk POST None (JObj [("cronExpression", JStr "* * * * *")]) None.

(** A 404 page over HTTP/2, which has no reason phrase. *)
Definition not_found_h2 : Response.t :=
  text_response 404 "" (Some "text/html") "<h1>Not Found</h1>".

(** A 204 without a content type. *)
Definition no_content_plain : Response.t :=
  text_response 204 "No Content" None "".

(** Parameters whose second key is an array index. *)
Definition index_key_params : JsObject ParamValue :=
  [("b", PString "x"); ("1", PString "y")].

Definition abc_params : JsObject ParamValue :=
  [("a", PString "1"); ("b", PUndefined); ("c", PString "x")].

(** A caller that sets both headers and sends an object. *)
Definition csv_options : RequestOptions.t :=
  RequestOptions.mk POST
    (Some [("Accept", "text/csv"); ("Content-Type", "text/plain")])
    (JObj [("name", JStr "t")]) None.

(** A caller that sets Content-Type and sends the number 0. *)
Definition zero_options : RequestOptions.t :=
  RequestOptions.mk POST (Some [("Content-Type", "text/plain")]) (JNum 0) None.

Definition report_pdf : File := mkFile "report.pdf" "%PDF-1.7".

Definition csv_download : Response.t :=
  Response.mk 200 "OK" (Some "text/csv")
              (Throw (ThrownError "Unexpected token in JSON"))
              (Normal "id,name") (Normal (mkBlob "id,name")).

(** A 200 that declares JSON and carries an HTML page. *)
Definition unparsable_ok : Response.t :=
  Response.mk 200 "OK" (Some "application/json")
              (Throw (ThrownError "Unexpected token < in JSON at position 0"))
              (Normal "<html></html>") (Normal (mkBlob "<html></html>")).

(** A 200 whose body is the JSON text null. *)
Definition json_null : Response.t :=
  Response.mk 200 "OK" (Some "application/json")
              (Normal JNull) (Normal "null") (Normal (mkBlob "null")).

(** A 200 with a text content type and an empty body. *)
Definition empty_text : Response.t :=
  Response.mk 200 "OK" (Some "text/plain")
              (Throw (ThrownError "Unexpected end of JSON input"))
              (Normal "") (Normal (mkBlob "")).

(** An object that refers to itself, and a function, as bodies. *)
Definition circular_body : Body :=
  BodyOther true (Throw (ThrownError "Converting circular structure to JSON")).

Definition function_body : Body := BodyOther true (Normal None).



(** Parameters that hold no string. *)
Definition void_params : JsObject ParamValue :=
  [("page", PUndefined); ("sort", PNull)].

(** A caller that adds a header of its own. *)
Definition trace_options : RequestOptions.t :=
  RequestOptions.mk GET (Some [("X-Trace", "abc")]) JUndefined None.


(** The progress of an analysis. *)
Definition analysis_progress : JsValue :=
  JObj [("status", JStr "PROCESSING"); ("progress", JNum 40)].

(** A gateway error page: not JSON, status 502. *)
Definition bad_gateway : Response.t :=
  text_response 502 "Bad Gateway" (Some "text/html") "<h1>502</h1>".

(** A response that is ok but whose blob cannot be read. *)
Definition broken_blob : Response.t :=
  Response.mk 200 "OK" (Some "text/csv")
              (Throw (ThrownError "Unexpected token in JSON"))
              (Normal "") (Throw (ThrownError "body stream interrupted")).

(** * Properties *)

Unset Implicit Arguments.

(** ** Lists and objects *)

Lemma fold_left_append_if {A B} (P : A -> bool) (F : A -> B) (l : list A) :
  forall acc,
    fold_left (fun q x => if P x then q ++ [F x] else q) l acc
    = acc ++ map F (filter P l).
Proof.
  induction l as [|x l IH]; intros acc; simpl.
  - now rewrite app_nil_r.
  - rewrite IH. destruct (P x); simpl; [now rewrite <- app_assoc | reflexivity].
Qed.

Lemma fold_left_append_all {A B} (F : A -> B) (l : list A) :
  forall acc, fold_left (fun q x => q ++ [F x]) l acc = acc ++ map F l.
Proof.
  induction l as [|x l IH]; intros acc; simpl.
  - now rewrite app_nil_r.
  - rewrite IH. now rewrite <- app_assoc.
Qed.

Lemma insert_by_index_perm {V} (e : string * V) l :
  Permutation (insert_by_index e l) (e :: l).
Proof.
  induction l as [|e' l IH]; simpl; [constructor; constructor|].
  destruct (index_of (fst e) <=? index_of (fst e'))%N.
  - apply Permutation_refl.
  - eapply perm_trans; [apply perm_skip, IH | apply perm_swap].
Qed.

Lemma sort_by_index_perm {V} (l : list (string * V)) :
  Permutation (sort_by_index l) l.
Proof.
  induction l as [|e l IH]; simpl; [constructor|].
  eapply perm_trans; [apply insert_by_index_perm | now apply perm_skip].
Qed.

Lemma filter_split_perm {A} (P : A -> bool) (l : list A) :
  Permutation (filter P l ++ filter (fun x => negb (P x)) l) l.
Proof.
  induction l as [|x l IH]; simpl; [constructor|].
  destruct (P x); simpl.
  - now apply perm_skip.
  - apply Permutation_sym, Permutation_cons_app, Permutation_sym, IH.
Qed.

(** [Object.entries] lists every own property once. *)
Lemma Object_entries_perm {V} (o : JsObject V) :
  Permutation (Object_entries o) o.
Proof.
  unfold Object_entries.
  eapply perm_trans; [|apply (filter_split_perm (fun e => is_array_index (fst e)))].
  apply Permutation_app_tail, sort_by_index_perm.
Qed.

Lemma filter_all {A} (P : A -> bool) (l : list A) :
  (forall x, In x l -> P x = true) -> filter P l = l.
Proof.
  induction l as [|x l IH]; simpl; intros H; [reflexivity|].
  rewrite (H x (or_introl eq_refl)). f_equal. apply IH. intros; apply H; now right.
Qed.

Lemma filter_none {A} (P : A -> bool) (l : list A) :
  (forall x, In x l -> P x = false) -> filter P l = [].
Proof.
  induction l as [|x l IH]; simpl; intros H; [reflexivity|].
  rewrite (H x (or_introl eq_refl)). apply IH. intros; apply H; now right.
Qed.

(** Without array-index keys, [Object.entries] follows creation order. *)
Lemma Object_entries_plain {V} (o : JsObject V) :
  (forall e, In e o -> is_array_index (fst e) = false) ->
  Object_entries o = o.
Proof.
  intros H. unfold Object_entries.
  rewrite filter_none by exact H.
  rewrite filter_all; [reflexivity|].
  intros e He. now rewrite (H e He).
Qed.

(** ** The result of [apiRequest], case by case *)

Section GatewayFacts.
Variable env : option string.
Variable stringify : JsValue -> string.
Variable network : string -> RequestInit.t -> Completion Response.t.

Local Abbreviation apiRequest' := (apiRequest env stringify network).
Local Abbreviation url_of ep o :=
  (build_url env ep (RequestOptions.params o)).
Local Abbreviation init_of o := (requestOptions stringify o).

Lemma parse_data_decoded response h :
  parse_data response h = (h, decoded response).
Proof.
  unfold parse_data, decoded, await, bind, ret.
  destruct (isJson response); [reflexivity|].
  destruct (negb (Response.status response =? 204)%Z); [|reflexivity].
  destruct (Response.text response); reflexivity.
Qed.

(** The [catch] branch: [fetch] rejected. *)
Lemma apiRequest_rejected ep o h e :
  network (url_of ep o) (init_of o) = Throw e ->
  apiRequest' ep o h
  = (logged (sent h (url_of ep o) (init_of o)) "API request failed:" e,
     Normal (mkApiResponse JUndefined (JStr (error_message e)) 0)).
Proof.
  intros H. unfold apiRequest, try_catch, bind, fetch. rewrite H. reflexivity.
Qed.

(** The [catch] branch: reading the body threw. *)
Lemma apiRequest_undecodable ep o h response e :
  network (url_of ep o) (init_of o) = Normal response ->
  decoded response = Throw e ->
  apiRequest' ep o h
  = (logged (sent h (url_of ep o) (init_of o)) "API request failed:" e,
     Normal (mkApiResponse JUndefined (JStr (error_message e)) 0)).
Proof.
  intros H D. unfold apiRequest, try_catch, bind, fetch. rewrite H.
  rewrite parse_data_decoded, D. reflexivity.
Qed.

(** The [return] of the [try] block. *)
Lemma apiRequest_answered ep o h response d :
  network (url_of ep o) (init_of o) = Normal response ->
  decoded response = Normal d ->
  apiRequest' ep o h
  = (sent h (url_of ep o) (init_of o),
     Normal (mkApiResponse
               (if Response.ok response then d else JUndefined)
               (if Response.ok response then JUndefined
                else js_or (optional_message d)
                           (JStr (Response.statusText response)))
               (Response.status response))).
Proof.
  intros H D. unfold apiRequest, try_catch, bind, fetch. rewrite H.
  rewrite parse_data_decoded, D. reflexivity.
Qed.

(** [apiRequest] never rejects: every call resolves to a Result. *)
Lemma apiRequest_resolves ep o h :
  exists h' res, apiRequest' ep o h = (h', Normal res).
Proof.
  destruct (network (url_of ep o) (init_of o)) as [response|e] eqn:H.
  - destruct (decoded response) as [d|e] eqn:D.
    + rewrite (apiRequest_answered _ _ h _ _ H D). eauto.
    + rewrite (apiRequest_undecodable _ _ h _ _ H D). eauto.
  - rewrite (apiRequest_rejected _ _ h _ H). eauto.
Qed.
(** Opens a goal about a call whose result has just been rewritten to a
    pair: takes that pair as the host and Result. *)
Ltac take_result := eexists; eexists; split; [reflexivity|]; simpl.

Lemma ok_in_range response :
  Response.ok response = true <-> in_ok_range (Response.status response).
Proof.
  unfold Response.ok, in_ok_range.
  rewrite andb_true_iff, !Z.leb_le. tauto.
Qed.

Lemma truthy_not_nullish v : truthy v = true -> not_nullish v = true.
Proof. destruct v; simpl; congruence. Qed.

(** [m || text] is never [undefined] or [null] when [text] is a string. *)
Lemma js_or_string_present m s : present (js_or m (JStr s)).
Proof.
  unfold present, js_or. destruct (truthy m) eqn:T; [|reflexivity].
  now apply truthy_not_nullish.
Qed.

Lemma present_defined v : present v -> v <> JUndefined.
Proof. intros P ->. discriminate P. Qed.

(** C1, as the code has it. For every response obtained by
    [apiRequest] whose body can be read, the Result has the response's
    status and counts as a success (it carries no error) if and only if
    that status is in the range 200 to 299, its data being then what was
    read; when the response declares a JSON content type with a status in
    that range and its body parses, [data] is the JSON-decoded body and
    [error] is absent. When reading the body throws, the Result is the
    one of a failed transport, status 0 and the thrown message, whatever
    the response's status. *)
Theorem apiRequest_success_iff_2xx ep o h response :
  network (url_of ep o) (init_of o) = Normal response ->
  (forall d,
      decoded response = Normal d ->
      exists h' res,
        apiRequest' ep o h = (h', Normal res)
        /\ status res = Response.status response
        /\ (error res = JUndefined <->
            in_ok_range (Response.status response))
        /\ (in_ok_range (Response.status response) -> data res = d))
  /\ (isJson response = true ->
      in_ok_range (Response.status response) ->
      forall v,
        Response.json response = Normal v ->
        exists h' res,
          apiRequest' ep o h = (h', Normal res)
          /\ data res = v /\ error res = JUndefined
          /\ status res = Response.status response)
  /\ (forall e,
         decoded response = Throw e ->
         exists h' res,
           apiRequest' ep o h = (h', Normal res)
           /\ status res = 0%Z /\ data res = JUndefined
           /\ error res = JStr (error_message e)).
Proof.
  intros H.
  assert (A : forall d,
             decoded response = Normal d ->
             exists h' res,
               apiRequest' ep o h = (h', Normal res)
               /\ status res = Response.status response
               /\ (error res = JUndefined <->
                   in_ok_range (Response.status response))
               /\ (in_ok_range (Response.status response) -> data res = d)).
  { intros d D. rewrite (apiRequest_answered _ _ h _ _ H D).
    eexists; eexists; split; [reflexivity|]. simpl.
    split; [reflexivity|]. split.
    - rewrite <- ok_in_range.
      destruct (Response.ok response); split; intros E;
        try reflexivity; try discriminate.
      exfalso. revert E. apply present_defined, js_or_string_present.
    - intros R. apply ok_in_range in R. now rewrite R. }
  split; [exact A|]. split.
  - intros J R v Hv.
    assert (D : decoded response = Normal v)
      by (unfold decoded; now rewrite J).
    destruct (A v D) as (h' & res & E & S & I & V).
    exists h', res. split; [exact E|]. split; [exact (V R)|].
    split; [apply I, R | exact S].
  - intros e D. rewrite (apiRequest_undecodable _ _ h _ _ H D).
    eexists; eexists; split; [reflexivity|]. simpl. repeat split.
Qed.

(** C2, as the code has it. When [fetch] itself rejects, the call still
    resolves, to a Result with status 0, no data, and as error the
    message of the thrown [Error], or the text "Network error" when
    something else was thrown; that error is non-empty whenever the
    thrown message is. *)
Theorem apiRequest_transport_failure ep o h e :
  network (url_of ep o) (init_of o) = Throw e ->
  exists h' res,
    apiRequest' ep o h = (h', Normal res) /\
    status res = 0%Z /\
    data res = JUndefined /\
    error res = JStr (error_message e) /\
    (forall v, e = ThrownValue v -> error res = JStr "Network error") /\
    (error_message e <> "" -> truthy (error res) = true).
Proof.
  intros H. rewrite (apiRequest_rejected _ _ h _ H).
  take_result.
  repeat split.
  - intros v ->. reflexivity.
  - intros N. destruct (String.eqb_spec (error_message e) "") as [E|E];
      [contradiction | reflexivity].
Qed.

(** C3, as the code has it. For a response with a status outside 200 to
    299: when its body can be read, the Result has no data, the
    response's status, and as error the [message] property of the
    decoded body when that is truthy and the response's [statusText]
    otherwise, so that the error is non-empty exactly when one of the
    two is; when reading the body throws, the Result is the one of a
    failed transport (status 0, the thrown message). *)
Theorem apiRequest_application_failure ep o h response :
  network (url_of ep o) (init_of o) = Normal response ->
  ~ in_ok_range (Response.status response) ->
  exists h' res,
    apiRequest' ep o h = (h', Normal res) /\
    data res = JUndefined /\
    present (error res) /\
    (forall d, decoded response = Normal d ->
       status res = Response.status response /\
       (truthy (optional_message d) = true ->
        error res = optional_message d) /\
       (truthy (optional_message d) = false ->
        error res = JStr (Response.statusText response)) /\
       (truthy (error res) = true <->
        truthy (optional_message d) = true
        \/ Response.statusText response <> "")) /\
    (forall e, decoded response = Throw e ->
       status res = 0%Z /\ error res = JStr (error_message e)).
Proof.
  intros H R.
  assert (K : Response.ok response = false).
  { destruct (Response.ok response) eqn:K; [|reflexivity].
    apply ok_in_range in K. contradiction. }
  destruct (decoded response) as [d|e] eqn:D.
  - rewrite (apiRequest_answered _ _ h _ _ H D), K.
    take_result.
    split; [reflexivity|]. split; [apply js_or_string_present|].
    split; [|discriminate].
    intros d' E. inversion E; subst d'. unfold js_or.
    destruct (truthy (optional_message d)) eqn:T.
    + repeat split; try congruence. intros _. now left.
    + repeat split; try congruence; simpl.
      * intros S. right. intros Z. rewrite Z in S. discriminate.
      * intros [C|N]; [discriminate|].
        destruct (String.eqb_spec (Response.statusText response) "");
          [contradiction | reflexivity].
  - rewrite (apiRequest_undecodable _ _ h _ _ H D).
    take_result.
    split; [reflexivity|]. split; [reflexivity|].
    split; [discriminate|].
    intros e' E. inversion E. split; reflexivity.
Qed.

(** A call succeeds with nothing to return exactly on a response in the
    success range that is a 204 without JSON content type, or whose JSON
    body decodes to null (or to no value at all). *)
Lemma empty_success_cases response :
  empty_success (Normal response) = true <->
  in_ok_range (Response.status response)
  /\ ((isJson response = false /\ Response.status response = 204%Z)
      \/ (isJson response = true
          /\ exists v, Response.json response = Normal v
                       /\ not_nullish v = false)).
Proof.
  unfold empty_success, decoded. rewrite andb_true_iff, ok_in_range.
  destruct (isJson response).
  - destruct (Response.json response) as [v|e]; split.
    + intros [R N]. split; [exact R|]. right. split; [reflexivity|].
      exists v. split; [reflexivity|]. now destruct (not_nullish v).
    + intros [R [[C _] | [_ (v' & E & N)]]]; [discriminate|].
      inversion E; subst. split; [exact R|]. now rewrite N.
    + intros [_ C]. discriminate.
    + intros [_ [[C _] | [_ (v' & E & _)]]]; discriminate.
  - destruct (Z.eqb_spec (Response.status response) 204) as [S|S]; simpl.
    + split; [intros [R _]; split; [exact R | now left] |].
      intros [R _]. split; [exact R | reflexivity].
    + destruct (Response.text response); split;
        try (intros [_ C]; discriminate);
        intros [_ [[_ C] | [C _]]]; try contradiction; discriminate.
Qed.

(** C4, as the code has it. No Result has both a payload and an error
    message; a call answered in the success range whose decoded value is
    null, a 204 that does not declare JSON or a JSON body that is null,
    has neither; every other Result has exactly one of the two. *)
Theorem apiRequest_data_xor_error ep o h :
  exists h' res,
    apiRequest' ep o h = (h', Normal res) /\
    ~ (present (data res) /\ present (error res)) /\
    (empty_success (network (url_of ep o) (init_of o)) = true ->
     ~ present (data res) /\ ~ present (error res)) /\
    (empty_success (network (url_of ep o) (init_of o)) = false ->
     (present (data res) /\ ~ present (error res))
     \/ (~ present (data res) /\ present (error res))).
Proof.
  unfold empty_success.
  destruct (network (url_of ep o) (init_of o)) as [response|e] eqn:H.
  - destruct (decoded response) as [d|e] eqn:D.
    + rewrite (apiRequest_answered _ _ h _ _ H D).
      take_result.
      destruct (Response.ok response); simpl; unfold present; simpl.
      * destruct (not_nullish d); simpl; repeat split;
          try discriminate; intuition congruence.
      * pose proof (js_or_string_present (optional_message d)
                      (Response.statusText response)) as P.
        unfold present in P. rewrite P.
        repeat split; try discriminate; intuition congruence.
    + rewrite (apiRequest_undecodable _ _ h _ _ H D).
      eexists; eexists; split; [reflexivity|]. unfold present; simpl.
      rewrite andb_false_r.
      repeat split; try discriminate; intuition congruence.
  - rewrite (apiRequest_rejected _ _ h _ H).
    eexists; eexists; split; [reflexivity|]. unfold present; simpl.
    repeat split; try discriminate; intuition congruence.
Qed.

(** C5, as the code has it. A response with the no-content status 204
    that does not declare a JSON content type gives a Result with a null
    payload, no error and status 204, a success, without its body being
    read. *)
Theorem apiRequest_no_content ep o h response :
  network (url_of ep o) (init_of o) = Normal response ->
  Response.status response = 204%Z ->
  isJson response = false ->
  apiRequest' ep o h
  = (sent h (url_of ep o) (init_of o),
     Normal (mkApiResponse JNull JUndefined 204))
  /\ ~ present JNull /\ in_ok_range 204.
Proof.
  intros H S J.
  assert (D : decoded response = Normal JNull).
  { unfold decoded. rewrite J, S. reflexivity. }
  rewrite (apiRequest_answered _ _ h _ _ H D).
  unfold Response.ok. rewrite S. simpl.
  repeat split; unfold in_ok_range; try lia. discriminate.
Qed.
End GatewayFacts.

(** ** Building the request *)

Lemma queryParams_kept (l : list (string * ParamValue)) :
  map (fun kv => (fst kv, ParamValue_toString (snd kv)))
      (filter (fun kv => param_defined (snd kv)) l)
  = kept_entries l.
Proof.
  induction l as [|kv l IH]; simpl; [reflexivity|].
  destruct kv as [k v]; destruct v; simpl; try assumption.
  now rewrite IH.
Qed.

Lemma kept_entries_In l k s :
  In (k, s) (kept_entries l) <-> In (k, PString s) l.
Proof.
  induction l as [|kv l IH]; simpl; [tauto|].
  destruct kv as [k' v]; destruct v as [| |s']; simpl; rewrite IH.
  - split; [tauto | intros [E|I]; [discriminate | assumption]].
  - split; [tauto | intros [E|I]; [discriminate | assumption]].
  - split; intros [E|I]; try tauto; left; congruence.
Qed.

(** C6, as the code has it. Every entry whose value is undefined or null
    is left out of the query and every other entry is kept with its own
    value, in the order [Object.entries] lists the keys: array-index keys
    first, in ascending order, then the others in insertion order, which
    is plain insertion order when no key is an array index. The
    parameters a = "1", b = undefined, c = "x" give the query string
    a=1&c=x. *)
Theorem queryParams_omits_undefined (params : JsObject ParamValue) :
  queryParams params = kept_entries (Object_entries params)
  /\ (forall k s, In (k, s) (queryParams params) <-> In (k, PString s) params)
  /\ ((forall e, In e params -> is_array_index (fst e) = false) ->
      queryParams params = kept_entries params)
  /\ URLSearchParams_toString
       (queryParams [("a", PString "1"); ("b", PUndefined); ("c", PString "x")])
     = "a=1&c=x".
Proof.
  assert (Q : forall p, queryParams p = kept_entries (Object_entries p)).
  { intros p. unfold queryParams, URLSearchParams_append.
    rewrite (fold_left_append_if
               (fun kv : string * ParamValue => param_defined (snd kv))
               (fun kv => (fst kv, ParamValue_toString (snd kv)))).
    apply queryParams_kept. }
  split; [apply Q|]. split; [|split].
  - intros k s. rewrite Q, kept_entries_In.
    split; apply Permutation_in;
      [|apply Permutation_sym]; apply Object_entries_perm.
  - intros H. rewrite Q. now rewrite Object_entries_plain.
  - reflexivity.
Qed.

Lemma obj_get_In {V} (o : JsObject V) k v :
  obj_get o k = Some v -> In (k, v) o.
Proof.
  induction o as [|[k' v'] o IH]; simpl; [discriminate|].
  destruct (String.eqb_spec k' k) as [->|N].
  - intros E; inversion E; now left.
  - intros E; right; auto.
Qed.

Lemma obj_get_None {V} (o : JsObject V) k :
  obj_get o k = None -> ~ In k (map fst o).
Proof.
  induction o as [|[k' v'] o IH]; simpl; [tauto|].
  destruct (String.eqb_spec k' k) as [->|N]; [discriminate|].
  intros E [C|C]; [contradiction | now apply IH].
Qed.

Lemma obj_get_set_same {V} (o : JsObject V) k v :
  obj_get (obj_set o k v) k = Some v.
Proof.
  induction o as [|[k' v'] o IH]; simpl.
  - now rewrite String.eqb_refl.
  - destruct (String.eqb_spec k' k) as [->|N]; simpl.
    + now rewrite String.eqb_refl.
    + destruct (String.eqb_spec k' k); [contradiction | exact IH].
Qed.

Lemma obj_get_set_other {V} (o : JsObject V) k k' v :
  k <> k' -> obj_get (obj_set o k v) k' = obj_get o k'.
Proof.
  intros N. induction o as [|[k0 v0] o IH]; simpl.
  - destruct (String.eqb_spec k k'); [contradiction | reflexivity].
  - destruct (String.eqb_spec k0 k) as [->|N0]; simpl.
    + destruct (String.eqb_spec k k'); [contradiction | reflexivity].
    + destruct (String.eqb_spec k0 k'); [reflexivity | exact IH].
Qed.

Lemma obj_get_assign_absent {V} (l : list (string * V)) k :
  ~ In k (map fst l) ->
  forall base,
    obj_get (fold_left (fun acc e => obj_set acc (fst e) (snd e)) l base) k
    = obj_get base k.
Proof.
  induction l as [|[k' v'] l IH]; simpl; intros N base; [reflexivity|].
  rewrite IH by tauto. apply obj_get_set_other. intros E. apply N. now left.
Qed.

Lemma obj_get_assign_present {V} (l : list (string * V)) k v :
  NoDup (map fst l) -> In (k, v) l ->
  forall base,
    obj_get (fold_left (fun acc e => obj_set acc (fst e) (snd e)) l base) k
    = Some v.
Proof.
  induction l as [|[k' v'] l IH]; simpl; intros D I base; [contradiction|].
  inversion D as [|? ? N D']; subst.
  destruct I as [E|I].
  - inversion E; subst. rewrite obj_get_assign_absent by assumption.
    apply obj_get_set_same.
  - now apply IH.
Qed.

(** A spread property wins over the literal's; the literal's stays when
    the spread object has no such property. *)
Lemma obj_get_spread {V} (base extra : JsObject V) k :
  NoDup (map fst extra) ->
  obj_get (obj_spread base extra) k
  = match obj_get extra k with
    | Some v => Some v
    | None => obj_get base k
    end.
Proof.
  intros D. unfold obj_spread.
  pose proof (Object_entries_perm extra) as P.
  destruct (obj_get extra k) as [v|] eqn:G.
  - apply obj_get_assign_present.
    + eapply Permutation_NoDup; [|exact D].
      apply Permutation_map, Permutation_sym, P.
    + eapply Permutation_in; [apply Permutation_sym, P|].
      now apply obj_get_In.
  - apply obj_get_assign_absent. intros I. apply (obj_get_None _ _ G).
    eapply Permutation_in; [apply Permutation_map, P | exact I].
Qed.

Lemma requestHeaders_unset (o : RequestOptions.t) :
  truthy (RequestOptions.body o) && negb (instanceof_FormData (RequestOptions.body o))
  = false ->
  requestHeaders o
  = obj_spread [("Accept", "application/json")] (caller_headers o).
Proof. intros E. unfold requestHeaders, caller_headers. now rewrite E. Qed.

Lemma spread_Content_Type (headers : JsObject string) :
  NoDup (map fst headers) ->
  obj_get (obj_spread [("Accept", "application/json")] headers) "Content-Type"
  = obj_get headers "Content-Type".
Proof.
  intros D. rewrite obj_get_spread by assumption.
  now destruct (obj_get headers "Content-Type").
Qed.

(** C7, as the code has it. The default Accept: application/json is in
    the request unless the caller's headers, applied after it, carry their
    own Accept. Content-Type is decided last and by the body alone when
    the body is truthy and not a form payload: it is then set to
    application/json over whatever the caller gave, and the body goes out
    as JSON text. For a form payload, sent as it is, and for an absent or
    falsy body, for which nothing is sent, the gateway sets no
    Content-Type: the request carries one only if the caller supplied
    it. *)
Theorem requestHeaders_composition stringify (o : RequestOptions.t) :
  NoDup (map fst (caller_headers o)) ->
  obj_get (requestHeaders o) "Accept"
  = Some (match obj_get (caller_headers o) "Accept" with
          | Some a => a
          | None => "application/json"
          end)
  /\ (truthy (RequestOptions.body o) = true ->
      instanceof_FormData (RequestOptions.body o) = false ->
      obj_get (requestHeaders o) "Content-Type" = Some "application/json"
      /\ RequestInit.body (requestOptions stringify o)
         = Some (BodyText (stringify (RequestOptions.body o))))
  /\ (forall fd,
         RequestOptions.body o = JFormData fd ->
         requestHeaders o
         = obj_spread [("Accept", "application/json")] (caller_headers o)
         /\ obj_get (requestHeaders o) "Content-Type"
            = obj_get (caller_headers o) "Content-Type"
         /\ RequestInit.body (requestOptions stringify o)
            = Some (BodyFormData fd))
  /\ (truthy (RequestOptions.body o) = false ->
      requestHeaders o
      = obj_spread [("Accept", "application/json")] (caller_headers o)
      /\ obj_get (requestHeaders o) "Content-Type"
         = obj_get (caller_headers o) "Content-Type"
      /\ RequestInit.body (requestOptions stringify o) = None).
Proof.
  intros D.
  assert (A : obj_get (obj_spread [("Accept", "application/json")]
                                  (caller_headers o)) "Accept"
              = Some (match obj_get (caller_headers o) "Accept" with
                      | Some a => a
                      | None => "application/json"
                      end)).
  { rewrite obj_get_spread by assumption.
    now destruct (obj_get (caller_headers o) "Accept"). }
  split; [|split; [|split]].
  - unfold requestHeaders. fold (caller_headers o).
    destruct (truthy (RequestOptions.body o)
              && negb (instanceof_FormData (RequestOptions.body o)));
      [|exact A].
    rewrite obj_get_set_other by discriminate. exact A.
  - intros T F. split.
    + unfold requestHeaders. rewrite T, F. simpl. apply obj_get_set_same.
    + unfold requestOptions. rewrite T. simpl.
      destruct (RequestOptions.body o); try reflexivity. discriminate F.
  - intros fd E.
    assert (U : requestHeaders o
                = obj_spread [("Accept", "application/json")] (caller_headers o)).
    { apply requestHeaders_unset. rewrite E. reflexivity. }
    rewrite U. split; [reflexivity|]. split; [now apply spread_Content_Type|].
    unfold requestOptions. rewrite E. reflexivity.
  - intros T.
    assert (U : requestHeaders o
                = obj_spread [("Accept", "application/json")] (caller_headers o)).
    { apply requestHeaders_unset. rewrite T. reflexivity. }
    rewrite U. split; [reflexivity|]. split; [now apply spread_Content_Type|].
    unfold requestOptions. rewrite T. reflexivity.
Qed.

(** Every call makes exactly one request, the one it built. *)
Lemma apiRequest_fetches env stringify network ep o h :
  exists h' res,
    apiRequest env stringify network ep o h = (h', Normal res)
    /\ fetched h'
       = fetched h ++ [(build_url env ep (RequestOptions.params o),
                        requestOptions stringify o)].
Proof.
  destruct (network (build_url env ep (RequestOptions.params o))
                    (requestOptions stringify o)) as [response|e] eqn:H.
  - destruct (decoded response) as [d|e] eqn:D.
    + rewrite (apiRequest_answered env stringify network _ _ h _ _ H D). eauto.
    + rewrite (apiRequest_undecodable env stringify network _ _ h _ _ H D).
      eauto.
  - rewrite (apiRequest_rejected env stringify network _ _ h _ H). eauto.
Qed.

(** C8. With a file and no additional fields the form body of
    [uploadFile] has exactly one entry, the file, under the name "file"
    when the caller gives no field name; additional string fields all
    follow it in the body; and the upload is the gateway's POST of that
    form, one request whose body is the form itself. *)
Theorem uploadFile_form env stringify network ep file fieldName additionalData h :
  (additionalData = None \/ additionalData = Some [] ->
   upload_formData file fieldName additionalData
   = [(match fieldName with Some n => n | None => "file" end, FVFile file)])
  /\ (forall extra,
         additionalData = Some extra ->
         upload_formData file fieldName additionalData
         = (match fieldName with Some n => n | None => "file" end, FVFile file)
             :: map (fun kv => (fst kv, FVString (snd kv))) (Object_entries extra)
         /\ forall k v, In (k, v) extra ->
                        In (k, FVString v)
                           (upload_formData file fieldName additionalData))
  /\ uploadFile env stringify network ep file fieldName additionalData h
     = apiRequest env stringify network ep
         (RequestOptions.mk POST None
            (JFormData (upload_formData file fieldName additionalData)) None) h
  /\ exists h' res,
      uploadFile env stringify network ep file fieldName additionalData h
      = (h', Normal res)
      /\ fetched h'
         = fetched h
           ++ [((API_BASE_URL env ++ ep)%string,
                RequestInit.mk POST (Some [("Accept", "application/json")])
                  "include"
                  (Some (BodyFormData
                           (upload_formData file fieldName additionalData))))].
Proof.
  split; [|split; [|split]].
  - intros [-> | ->]; reflexivity.
  - intros extra ->. unfold upload_formData, FormData_append.
    rewrite (fold_left_append_all
               (fun kv : string * string => (fst kv, FVString (snd kv)))).
    simpl. split; [reflexivity|].
    intros k v I. right.
    apply (in_map (fun kv : string * string => (fst kv, FVString (snd kv)))
                  _ (k, v)).
    eapply Permutation_in; [apply Permutation_sym, Object_entries_perm | exact I].
  - reflexivity.
  - unfold uploadFile.
    destruct (apiRequest_fetches env stringify network ep
                (RequestOptions.mk POST None
                   (JFormData (upload_formData file fieldName additionalData))
                   None) h) as (h' & res & E & F).
    exists h', res. split; [exact E | exact F].
Qed.

(** ** Downloads *)

Lemma save_as_effect blob filename h :
  exists h',
    save_as blob filename h = (h', Normal tt)
    /\ fetched h' = fetched h
    /\ saves h'
       = saves h ++ [mkSave filename (object_url_of (next_id h)) (Some blob)].
Proof.
  unfold save_as, bind, createObjectURL, createElement_a, appendChild, click,
    removeChild, revokeObjectURL; simpl.
  rewrite String.eqb_refl. eexists; split; [reflexivity|]. split; reflexivity.
Qed.

Section DownloadFacts.
Variable network : string -> RequestInit.t -> Completion Response.t.
Variable label : string.
Variables url filename : string.

Lemma download_run_contract :
  download_contract network (download_run network label url filename)
                    url filename.
Proof.
  intros h. unfold download_run.
  cbv beta delta [try_catch bind fetch throw await console_error ret].
  split; [|split; [|split]].
  - destruct (network url _) as [response|e]; cbv beta iota; [|eauto].
    destruct (Response.ok response); cbv beta iota delta [negb]; [|eauto].
    destruct (Response.blob response) as [blob|e]; cbv beta iota; [|eauto].
    destruct (save_as_effect blob filename
                (mkHost (fetched h ++ [(url, RequestInit.mk GET None "include" None)])
                        (console_errors h) (next_id h) (object_urls h)
                        (body_children h) (saves h))) as (h' & E & _).
    rewrite E. eauto.
  - intros response blob H R B. rewrite H.
    apply ok_in_range in R. rewrite R, B. cbv beta iota delta [negb].
    destruct (save_as_effect blob filename
                (mkHost (fetched h ++ [(url, RequestInit.mk GET None "include" None)])
                        (console_errors h) (next_id h) (object_urls h)
                        (body_children h) (saves h))) as (h' & E & F & S).
    rewrite E. exists h'. split; [reflexivity|]. split; assumption.
  - intros e H. rewrite H. eexists; split; reflexivity.
  - intros response H R. rewrite H.
    destruct (Response.ok response) eqn:K;
      [apply ok_in_range in K; contradiction|].
    eexists; split; reflexivity.
Qed.
End DownloadFacts.

Lemma downloadFile_run env network ep filename params :
  downloadFile env network ep filename params
  = download_run network "File download failed:"
                 (build_url env ep params) filename.
Proof. reflexivity. Qed.

Lemma downloadBatchResults_run network batchId :
  downloadBatchResults network batchId
  = download_run network "Batch download failed:"
                 ("/api/batch/download/" ++ batchId)%string
                 ("batch_" ++ batchId ++ ".zip")%string.
Proof. reflexivity. Qed.

(** C9. A download, [downloadFile] under the caller's file name as much
    as [downloadBatchResults] under the name it derives from the batch
    id, keeps the download contract: a response in the success range with
    readable binary content gives exactly one save request under that
    name and the answer true; a rejected request or a status outside the
    range gives false; and the call always resolves to a boolean, never
    rejecting and never handing back an error value. *)
Theorem download_keeps_contract env network ep filename params batchId :
  download_contract network
    (downloadFile env network ep filename params)
    (build_url env ep params) filename
  /\ download_contract network
       (downloadBatchResults network batchId)
       ("/api/batch/download/" ++ batchId)%string
       ("batch_" ++ batchId ++ ".zip")%string.
Proof.
  rewrite downloadFile_run, downloadBatchResults_run.
  split; apply download_run_contract.
Qed.

(** C10. A body that is present but falsy (the empty string, the number
    0, or false) is not transmitted and brings no Content-Type: the
    request, and with it the whole call, is the one made without a
    body. *)
Theorem falsy_body_is_no_body env stringify network ep (o : RequestOptions.t) h :
  RequestOptions.body o = JStr ""
  \/ RequestOptions.body o = JNum 0
  \/ RequestOptions.body o = JBool false ->
  RequestInit.body (requestOptions stringify o) = None
  /\ requestHeaders o
     = obj_spread [("Accept", "application/json")] (caller_headers o)
  /\ requestOptions stringify o = requestOptions stringify (without_body o)
  /\ apiRequest env stringify network ep o h
     = apiRequest env stringify network ep (without_body o) h.
Proof.
  intros B.
  assert (T : truthy (RequestOptions.body o) = false).
  { destruct B as [-> | [-> | ->]]; reflexivity. }
  assert (R : requestOptions stringify o
              = requestOptions stringify (without_body o)).
  { unfold requestOptions, requestHeaders, without_body. simpl.
    rewrite T. reflexivity. }
  split; [|split; [|split]].
  - unfold requestOptions. now rewrite T.
  - apply requestHeaders_unset. now rewrite T.
  - exact R.
  - unfold apiRequest. rewrite R. reflexivity.
Qed.

(** * The properties on concrete calls *)

Lemma apiRequest_success_iff_2xx_witness :
  stub_network (Normal (json_response 200 "OK" templates_page))
    (build_url None "/templates" (RequestOptions.params list_options))
    (requestOptions stub_stringify list_options)
  = Normal (json_response 200 "OK" templates_page)
  /\ exists h' res,
      apiRequest None stub_stringify
        (stub_network (Normal (json_response 200 "OK" templates_page)))
        "/templates" list_options host0 = (h', Normal res)
      /\ data res = templates_page /\ error res = JUndefined
      /\ status res = 200%Z.
Proof.
  split; [reflexivity|].
  destruct (apiRequest_success_iff_2xx None stub_stringify
              (stub_network (Normal (json_response 200 "OK" templates_page)))
              "/templates" list_options host0
              (json_response 200 "OK" templates_page) eq_refl)
    as (_ & J & _).
  assert (R : in_ok_range 200) by (unfold in_ok_range; lia).
  exact (J eq_refl R templates_page eq_refl).
Defined.

(** C1 as stated fails for a response in the success range that declares
    JSON and whose body does not parse: the Result carries an error and
    the status 0. *)
Lemma success_status_unparsable_json :
  in_ok_range (Response.status unparsable_ok)
  /\ isJson unparsable_ok = true
  /\ snd (apiRequest None stub_stringify (stub_network (Normal unparsable_ok))
            "/templates" get_options host0)
     = Normal (mkApiResponse
                 JUndefined
                 (JStr "Unexpected token < in JSON at position 0") 0)
  /\ ~ (exists h' res,
           apiRequest None stub_stringify (stub_network (Normal unparsable_ok))
             "/templates" get_options host0 = (h', Normal res)
           /\ (error res = JUndefined <->
               in_ok_range (Response.status unparsable_ok))).
Proof.
  assert (R : in_ok_range (Response.status unparsable_ok))
    by (unfold in_ok_range; simpl; lia).
  split; [exact R|]. split; [reflexivity|]. split; [reflexivity|].
  intros (h' & res & E & I).
  vm_compute in E. inversion E; subst. apply I in R. discriminate R.
Qed.

Example templates_url :
  build_url None "/templates" (RequestOptions.params list_options)
  = "http://localhost:8080/tdg/api/templates?page=0&size=10".
Proof. reflexivity. Qed.

Lemma apiRequest_transport_failure_witness :
  stub_network (Throw (ThrownError "Failed to fetch"))
    (build_url None "/templates" (RequestOptions.params get_options))
    (requestOptions stub_stringify get_options)
  = Throw (ThrownError "Failed to fetch")
  /\ exists h' res,
      apiRequest None stub_stringify
        (stub_network (Throw (ThrownError "Failed to fetch")))
        "/templates" get_options host0 = (h', Normal res)
      /\ status res = 0%Z
      /\ error res = JStr "Failed to fetch"
      /\ truthy (error res) = true.
Proof.
  split; [reflexivity|].
  destruct (apiRequest_transport_failure None stub_stringify
              (stub_network (Throw (ThrownError "Failed to fetch")))
              "/templates" get_options host0
              (ThrownError "Failed to fetch") eq_refl)
    as (h' & res & E & S & _ & M & _ & T).
  exists h', res. repeat split; try assumption.
  apply T. discriminate.
Defined.

(** C2 as stated fails when the thrown [Error] has an empty message: the
    Result's error is then the empty string. *)
Lemma transport_failure_empty_message :
  snd (apiRequest None stub_stringify
         (stub_network (Throw (ThrownError "")))
         "/templates" get_options host0)
  = Normal (mkApiResponse JUndefined (JStr "") 0)
  /\ ~ (exists h' res msg,
           apiRequest None stub_stringify
             (stub_network (Throw (ThrownError "")))
             "/templates" get_options host0 = (h', Normal res)
           /\ status res = 0%Z /\ error res = JStr msg /\ msg <> "").
Proof.
  split; [reflexivity|].
  intros (h' & res & msg & E & _ & M & N).
  vm_compute in E. inversion E; subst. simpl in M. inversion M. congruence.
Qed.

Lemma apiRequest_application_failure_witness :
  stub_network (Normal name_required)
    (build_url None "/schedules" (RequestOptions.params schedule_options))
    (requestOptions stub_stringify schedule_options)
  = Normal name_required
  /\ ~ in_ok_range (Response.status name_required)
  /\ exists h' res,
      apiRequest None stub_stringify (stub_network (Normal name_required))
        "/schedules" schedule_options host0 = (h', Normal res)
      /\ data res = JUndefined
      /\ error res = JStr "name is required"
      /\ status res = 400%Z.
Proof.
  assert (R : ~ in_ok_range (Response.status name_required))
    by (unfold in_ok_range; simpl; lia).
  split; [reflexivity|]. split; [exact R|].
  destruct (apiRequest_application_failure None stub_stringify
              (stub_network (Normal name_required))
              "/schedules" schedule_options host0 name_required eq_refl R)
    as (h' & res & E & D & _ & A & _).
  exists h', res.
  destruct (A (JObj [("message", JStr "name is required")]) eq_refl)
    as (S & M & _).
  repeat split; try assumption. exact (M eq_refl).
Defined.

(** C3 as stated fails for a status without a reason phrase, as over
    HTTP/2, when the body carries no message: the Result's error is the
    empty string. *)
Lemma application_failure_empty_reason :
  snd (apiRequest None stub_stringify (stub_network (Normal not_found_h2))
         "/templates/7" get_options host0)
  = Normal (mkApiResponse JUndefined (JStr "") 404)
  /\ ~ in_ok_range (Response.status not_found_h2)
  /\ ~ (exists h' res msg,
           apiRequest None stub_stringify (stub_network (Normal not_found_h2))
             "/templates/7" get_options host0 = (h', Normal res)
           /\ data res = JUndefined /\ error res = JStr msg /\ msg <> "").
Proof.
  split; [reflexivity|]. split; [unfold in_ok_range; simpl; lia|].
  intros (h' & res & msg & E & _ & M & N).
  vm_compute in E. inversion E; subst. simpl in M. inversion M. congruence.
Qed.

Lemma apiRequest_data_xor_error_witness :
  empty_success
    (stub_network (Normal no_content_plain)
       (build_url None "/schedules/3" (RequestOptions.params get_options))
       (requestOptions stub_stringify get_options)) = true
  /\ exists h' res,
      apiRequest None stub_stringify (stub_network (Normal no_content_plain))
        "/schedules/3" get_options host0 = (h', Normal res)
      /\ ~ present (data res) /\ ~ present (error res).
Proof.
  split; [reflexivity|].
  destruct (apiRequest_data_xor_error None stub_stringify
              (stub_network (Normal no_content_plain))
              "/schedules/3" get_options host0)
    as (h' & res & E & _ & N & _).
  exists h', res. split; [exact E | exact (N eq_refl)].
Defined.

(** C4 as stated fails both ways: a 200 whose body is the JSON text null
    carries a body and is a success, and its Result has neither data nor
    error; a 200 with an empty text body carries none, and its Result has
    the empty string as data. *)
Lemma data_xor_error_by_body :
  ~ carries_no_body json_null
  /\ in_ok_range (Response.status json_null)
  /\ snd (apiRequest None stub_stringify (stub_network (Normal json_null))
            "/templates/7" get_options host0)
     = Normal (mkApiResponse JNull JUndefined 200)
  /\ ~ (exists h' res,
           apiRequest None stub_stringify (stub_network (Normal json_null))
             "/templates/7" get_options host0 = (h', Normal res)
           /\ ((present (data res) /\ ~ present (error res))
               \/ (~ present (data res) /\ present (error res))))
  /\ carries_no_body empty_text
  /\ in_ok_range (Response.status empty_text)
  /\ snd (apiRequest None stub_stringify (stub_network (Normal empty_text))
            "/templates/7" get_options host0)
     = Normal (mkApiResponse (JStr "") JUndefined 200)
  /\ ~ (exists h' res,
           apiRequest None stub_stringify (stub_network (Normal empty_text))
             "/templates/7" get_options host0 = (h', Normal res)
           /\ ~ present (data res) /\ ~ present (error res)).
Proof.
  split; [discriminate|].
  split; [unfold in_ok_range; simpl; lia|].
  split; [reflexivity|]. split.
  { intros (h' & res & E & X). vm_compute in E. inversion E; subst.
    destruct X as [[P _] | [_ P]]; discriminate P. }
  split; [reflexivity|].
  split; [unfold in_ok_range; simpl; lia|].
  split; [reflexivity|].
  intros (h' & res & E & P & _). vm_compute in E. inversion E; subst.
  apply P. reflexivity.
Qed.

Lemma apiRequest_no_content_witness :
  stub_network (Normal no_content_plain)
    (build_url None "/schedules/3" (RequestOptions.params get_options))
    (requestOptions stub_stringify get_options)
  = Normal no_content_plain
  /\ Response.status no_content_plain = 204%Z
  /\ isJson no_content_plain = false
  /\ snd (apiRequest None stub_stringify (stub_network (Normal no_content_plain))
            "/schedules/3" get_options host0)
     = Normal (mkApiResponse JNull JUndefined 204).
Proof.
  split; [reflexivity|]. split; [reflexivity|]. split; [reflexivity|].
  rewrite (proj1 (apiRequest_no_content None stub_stringify
                    (stub_network (Normal no_content_plain))
                    "/schedules/3" get_options host0 no_content_plain
                    eq_refl eq_refl eq_refl)).
  reflexivity.
Defined.

(** C5 as stated fails for a 204 that declares a JSON content type: the
    empty body does not parse, and the Result is the one of a failed
    transport. *)
Lemma no_content_declared_json :
  Response.status no_content_json = 204%Z
  /\ snd (apiRequest None stub_stringify (stub_network (Normal no_content_json))
            "/schedules/3" get_options host0)
     = Normal (mkApiResponse JUndefined
                             (JStr "Unexpected end of JSON input") 0)
  /\ ~ (exists h' res,
           apiRequest None stub_stringify (stub_network (Normal no_content_json))
             "/schedules/3" get_options host0 = (h', Normal res)
           /\ ~ present (error res) /\ in_ok_range (status res)).
Proof.
  split; [reflexivity|]. split; [reflexivity|].
  intros (h' & res & E & P & _).
  vm_compute in E. inversion E; subst. apply P. reflexivity.
Qed.

Lemma queryParams_omits_undefined_witness :
  (forall e, In e abc_params -> is_array_index (fst e) = false)
  /\ queryParams abc_params = [("a", "1"); ("c", "x")]
  /\ URLSearchParams_toString (queryParams abc_params) = "a=1&c=x".
Proof.
  assert (H : forall e, In e abc_params -> is_array_index (fst e) = false).
  { intros e [<- | [<- | [<- | []]]]; reflexivity. }
  split; [exact H|].
  destruct (queryParams_omits_undefined abc_params) as (_ & _ & P & _).
  rewrite (P H). split; reflexivity.
Defined.

(** C6 as stated fails for a key that is an array index: it is listed
    before the keys inserted ahead of it. *)
Lemma array_index_key_comes_first :
  queryParams index_key_params = [("1", "y"); ("b", "x")]
  /\ kept_entries index_key_params = [("b", "x"); ("1", "y")]
  /\ queryParams index_key_params <> kept_entries index_key_params
  /\ URLSearchParams_toString (queryParams index_key_params) = "1=y&b=x".
Proof.
  split; [reflexivity|]. split; [reflexivity|].
  split; [discriminate | reflexivity].
Qed.

Lemma requestHeaders_composition_witness :
  NoDup (map fst (caller_headers csv_options))
  /\ obj_get (requestHeaders csv_options) "Accept" = Some "text/csv"
  /\ obj_get (requestHeaders csv_options) "Content-Type"
     = Some "application/json"
  /\ RequestInit.body (requestOptions stub_stringify csv_options)
     = Some (BodyText "<json>").
Proof.
  assert (D : NoDup (map fst (caller_headers csv_options))).
  { simpl. constructor; [|constructor; [|constructor]]; simpl.
    - intros [E | []]. discriminate E.
    - intros []. }
  split; [exact D|].
  destruct (requestHeaders_composition stub_stringify csv_options D)
    as (A & J & _).
  split; [exact A|]. exact (J eq_refl eq_refl).
Defined.

(** C7 as stated fails for a body that is present but falsy: no JSON
    Content-Type is set for it, nothing is sent, and the Content-Type of
    the request is whatever the caller gave. *)
Lemma falsy_body_gets_no_json_header :
  RequestOptions.body zero_options <> JUndefined
  /\ instanceof_FormData (RequestOptions.body zero_options) = false
  /\ obj_get (requestHeaders zero_options) "Content-Type" = Some "text/plain"
  /\ obj_get (requestHeaders zero_options) "Content-Type"
     <> Some "application/json"
  /\ RequestInit.body (requestOptions stub_stringify zero_options) = None.
Proof.
  repeat split; try reflexivity; discriminate.
Qed.

Lemma uploadFile_form_witness :
  In ("k", "v") [("k", "v")]
  /\ upload_formData report_pdf None None = [("file", FVFile report_pdf)]
  /\ upload_formData report_pdf None (Some [("k", "v")])
     = [("file", FVFile report_pdf); ("k", FVString "v")]
  /\ In ("k", FVString "v")
        (upload_formData report_pdf None (Some [("k", "v")])).
Proof.
  assert (I : In ("k", "v") [("k", "v")]) by (left; reflexivity).
  split; [exact I|].
  destruct (uploadFile_form None stub_stringify
              (stub_network (Normal name_required))
              "/pdf/analyze" report_pdf None None host0) as (O & _).
  destruct (uploadFile_form None stub_stringify
              (stub_network (Normal name_required))
              "/pdf/analyze" report_pdf None (Some [("k", "v")]) host0)
    as (_ & X & _).
  destruct (X [("k", "v")] eq_refl) as (F & M).
  split; [exact (O (or_introl eq_refl))|].
  split; [exact F | exact (M "k" "v" I)].
Defined.

Lemma download_keeps_contract_witness :
  stub_network (Normal csv_download)
    (build_url None "/generate/7" None)
    (RequestInit.mk GET None "include" None) = Normal csv_download
  /\ in_ok_range (Response.status csv_download)
  /\ Response.blob csv_download = Normal (mkBlob "id,name")
  /\ exists h',
      downloadFile None (stub_network (Normal csv_download))
        "/generate/7" "generated_data.csv" None host0 = (h', Normal true)
      /\ saves h'
         = [mkSave "generated_data.csv" "blob:0" (Some (mkBlob "id,name"))].
Proof.
  assert (R : in_ok_range (Response.status csv_download))
    by (unfold in_ok_range; simpl; lia).
  split; [reflexivity|]. split; [exact R|]. split; [reflexivity|].
  destruct (proj1 (download_keeps_contract None
                     (stub_network (Normal csv_download))
                     "/generate/7" "generated_data.csv" None "42") host0)
    as (_ & G & _).
  destruct (G csv_download (mkBlob "id,name") eq_refl R eq_refl)
    as (h' & E & _ & S).
  exists h'. split; [exact E | exact S].
Defined.

Lemma falsy_body_is_no_body_witness :
  (RequestOptions.body zero_options = JStr ""
   \/ RequestOptions.body zero_options = JNum 0
   \/ RequestOptions.body zero_options = JBool false)
  /\ RequestInit.body (requestOptions stub_stringify zero_options) = None
  /\ requestOptions stub_stringify zero_options
     = requestOptions stub_stringify (without_body zero_options).
Proof.
  assert (B : RequestOptions.body zero_options = JStr ""
              \/ RequestOptions.body zero_options = JNum 0
              \/ RequestOptions.body zero_options = JBool false)
    by (right; left; reflexivity).
  split; [exact B|].
  destruct (falsy_body_is_no_body None stub_stringify
              (stub_network (Normal name_required))
              "/generate/preview" zero_options host0 B) as (N & _ & R & _).
  split; [exact N | exact R].
Defined.

(** * Further properties of the gateway *)

Lemma occurrences_app c (a b : string) :
  occurrences c (a ++ b)%string = occurrences c a + occurrences c b.
Proof.
  induction a as [|c' a IH]; simpl; [reflexivity|]. rewrite IH. lia.
Qed.

Lemma urlencode_byte_reserved sep c :
  In sep reserved -> occurrences sep (urlencode_byte c) = 0.
Proof.
  intros [<- | [<- | [<- | [<- | [<- | []]]]]];
    destruct c as [[] [] [] [] [] [] [] []]; reflexivity.
Qed.

(** An encoded name or value holds none of the reserved characters. *)
Lemma urlencode_reserved sep s :
  In sep reserved -> occurrences sep (urlencode s) = 0.
Proof.
  intros R. induction s as [|c s IH]; simpl; [reflexivity|].
  now rewrite occurrences_app, IH, urlencode_byte_reserved.
Qed.

Lemma entry_occurrences sep (kv : string * string) :
  In sep reserved ->
  occurrences sep (urlencode (fst kv) ++ "=" ++ urlencode (snd kv))%string
  = if (sep =? "=")%char then 1 else 0.
Proof.
  intros R. rewrite occurrences_app, urlencode_reserved by exact R.
  change (occurrences sep ("=" ++ urlencode (snd kv))%string)
    with ((if ("=" =? sep)%char then 1 else 0)
          + occurrences sep (urlencode (snd kv))).
  rewrite urlencode_reserved by exact R. rewrite Ascii.eqb_sym.
  destruct (sep =? "=")%char; reflexivity.
Qed.

Lemma concat_occurrences sep (l : list string) :
  occurrences sep (String.concat "&" l)
  = list_sum (map (occurrences sep) l)
    + (if (sep =? "&")%char then pred (length l) else 0).
Proof.
  induction l as [|x l IH].
  - cbn. destruct (sep =? "&")%char; reflexivity.
  - destruct l as [|y l].
    + cbn. destruct (sep =? "&")%char; lia.
    + change (String.concat "&" (x :: y :: l))
        with (x ++ String "&" (String.concat "&" (y :: l)))%string.
      rewrite occurrences_app.
      change (occurrences sep (String "&" ?s))
        with ((if ("&" =? sep)%char then 1 else 0) + occurrences sep s).
      rewrite IH, (Ascii.eqb_sym "&" sep).
      cbn [map length pred]. unfold list_sum. cbn [fold_right].
      destruct (sep =? "&")%char; lia.
Qed.

Lemma toString_occurrences sep (q : URLSearchParams) :
  In sep reserved ->
  occurrences sep (URLSearchParams_toString q)
  = (if (sep =? "=")%char then length q else 0)
    + (if (sep =? "&")%char then pred (length q) else 0).
Proof.
  intros R. unfold URLSearchParams_toString.
  rewrite concat_occurrences, length_map. f_equal.
  induction q as [|kv q IH]; cbn [map length].
  - now destruct (sep =? "=")%char.
  - change (list_sum (?a :: ?l)) with (a + list_sum l).
    rewrite IH, (entry_occurrences sep kv R).
    destruct (sep =? "=")%char; reflexivity.
Qed.

(** Only the empty parameter list serializes to the empty string. *)
Lemma toString_empty (q : URLSearchParams) :
  URLSearchParams_toString q = "" <-> q = [].
Proof.
  split; [|intros ->; reflexivity].
  intros E.
  assert (R : In "="%char reserved) by (right; left; reflexivity).
  pose proof (toString_occurrences "=" q R) as O. rewrite E in O. simpl in O.
  destruct q; [reflexivity | simpl in O; discriminate].
Qed.

Lemma queryParams_entries (params : JsObject ParamValue) k s :
  In (k, s) (queryParams params) <-> In (k, PString s) params.
Proof.
  unfold queryParams, URLSearchParams_append.
  rewrite (fold_left_append_if
             (fun kv : string * ParamValue => param_defined (snd kv))
             (fun kv => (fst kv, ParamValue_toString (snd kv)))).
  simpl. rewrite queryParams_kept, kept_entries_In.
  split; apply Permutation_in;
    [|apply Permutation_sym]; apply Object_entries_perm.
Qed.

(** X1. Whatever the caller puts in a parameter name or value, the query
    string has one [=] per transmitted entry, one [&] between two entries
    and no [?], [#] or space: a value cannot add, split or end
    parameters. *)
Theorem query_string_separators (params : JsObject ParamValue) :
  occurrences "=" (URLSearchParams_toString (queryParams params))
  = length (queryParams params)
  /\ occurrences "&" (URLSearchParams_toString (queryParams params))
     = pred (length (queryParams params))
  /\ occurrences "?" (URLSearchParams_toString (queryParams params)) = 0
  /\ occurrences "#" (URLSearchParams_toString (queryParams params)) = 0
  /\ occurrences " " (URLSearchParams_toString (queryParams params)) = 0.
Proof.
  repeat split;
    rewrite toString_occurrences by (unfold reserved; simpl; tauto);
    simpl; lia.
Qed.

(** X2. The URL is the base URL followed by the endpoint, with a query
    string exactly when some parameter holds a string: without
    parameters, with an empty object or with only undefined and null
    values there is no question mark at all. *)
Theorem build_url_query env ep :
  build_url env ep None = (API_BASE_URL env ++ ep)%string
  /\ forall p,
      (queryParams p = [] <->
       forall e, In e p -> param_defined (snd e) = false)
      /\ (queryParams p = [] ->
          build_url env ep (Some p) = (API_BASE_URL env ++ ep)%string)
      /\ (queryParams p <> [] ->
          build_url env ep (Some p)
          = ((API_BASE_URL env ++ ep) ++ "?"
             ++ URLSearchParams_toString (queryParams p))%string).
Proof.
  split; [reflexivity|]. intros p. split; [|split].
  - split.
    + intros E [k v] I. destruct v as [| |s]; try reflexivity.
      apply queryParams_entries in I. rewrite E in I. contradiction.
    + intros H. destruct (queryParams p) as [|[k s] q] eqn:E; [reflexivity|].
      assert (I : In (k, s) (queryParams p)) by (rewrite E; now left).
      apply queryParams_entries in I. apply H in I. discriminate.
  - intros E. unfold build_url. rewrite E. reflexivity.
  - intros N. unfold build_url.
    destruct (String.eqb_spec (URLSearchParams_toString (queryParams p)) "")
      as [E|E].
    + apply toString_empty in E. contradiction.
    + reflexivity.
Qed.

(** The [try] and its [catch] always resolve, after exactly one request,
    and touch the console only in the [catch]. *)
Lemma respond_outcome network url init h :
  exists h' res,
    respond network url init h = (h', Normal res)
    /\ fetched h' = fetched h ++ [(url, init)]
    /\ saves h' = saves h
    /\ object_urls h' = object_urls h
    /\ body_children h' = body_children h
    /\ ((console_errors h' = console_errors h
         /\ exists response,
             network url init = Normal response
             /\ status res = Response.status response)
        \/ (exists e,
               console_errors h'
               = console_errors h ++ [("API request failed:", e)]
               /\ res = mkApiResponse JUndefined (JStr (error_message e)) 0)).
Proof.
  unfold respond, try_catch, bind, fetch, console_error, ret.
  destruct (network url init) as [response|e] eqn:H.
  - rewrite parse_data_decoded.
    destruct (decoded response) as [d|e] eqn:D.
    + eexists; eexists; split; [reflexivity|]. simpl.
      repeat split. left. split; [reflexivity|]. now exists response.
    + eexists; eexists; split; [reflexivity|]. simpl.
      repeat split. right. now exists e.
  - eexists; eexists; split; [reflexivity|]. simpl.
    repeat split. right. now exists e.
Qed.

(** On a [JsValue] body the gateway of any body is [apiRequest]. *)
Lemma apiRequest_any_value env stringify network ep m hd v p :
  requestBody stringify (AnyOptions.mk m hd (BodyValue v) p)
  = Normal (RequestInit.body
              (requestOptions stringify (RequestOptions.mk m hd v p)))
  /\ apiRequest_any env stringify network ep
       (AnyOptions.mk m hd (BodyValue v) p)
     = apiRequest env stringify network ep (RequestOptions.mk m hd v p).
Proof.
  assert (B : requestBody stringify (AnyOptions.mk m hd (BodyValue v) p)
              = Normal (RequestInit.body
                          (requestOptions stringify
                                          (RequestOptions.mk m hd v p)))).
  { unfold requestBody, requestOptions. simpl.
    destruct (truthy v); [|reflexivity]. destruct v; reflexivity. }
  split; [exact B|].
  unfold apiRequest_any. rewrite B. reflexivity.
Qed.

(** X3. A call to [apiRequest] whose body [JSON.stringify] throws on
    rejects with the value thrown, before the [try]: nothing is fetched
    and the host is as it was. Every other call, and so every call with a
    [JsValue] body, makes exactly one request and leaves the document,
    the object URLs and the downloads alone; the console is written to
    only in the [catch] branch, once, with the thrown value the Result's
    error is taken from, and a call that returns from the [try] block
    logs nothing and reports the response's own status. *)
Theorem apiRequest_side_effects env stringify network ep (o : AnyOptions.t) h :
  (forall e,
      requestBody stringify o = Throw e ->
      apiRequest_any env stringify network ep o h = (h, Throw e))
  /\ (forall body,
         requestBody stringify o = Normal body ->
         exists h' res,
           apiRequest_any env stringify network ep o h = (h', Normal res)
           /\ fetched h'
              = fetched h
                ++ [(build_url env ep (AnyOptions.params o),
                     RequestInit.mk (AnyOptions.method o)
                                    (Some (requestHeaders_any o))
                                    "include" body)]
           /\ saves h' = saves h
           /\ object_urls h' = object_urls h
           /\ body_children h' = body_children h
           /\ ((console_errors h' = console_errors h
                /\ exists response,
                    network (build_url env ep (AnyOptions.params o))
                            (RequestInit.mk (AnyOptions.method o)
                                            (Some (requestHeaders_any o))
                                            "include" body)
                    = Normal response
                    /\ status res = Response.status response)
               \/ (exists e,
                      console_errors h'
                      = console_errors h ++ [("API request failed:", e)]
                      /\ res = mkApiResponse JUndefined
                                             (JStr (error_message e)) 0)))
  /\ (forall m hd v p,
         o = AnyOptions.mk m hd (BodyValue v) p ->
         (exists body, requestBody stringify o = Normal body)
         /\ apiRequest_any env stringify network ep o h
            = apiRequest env stringify network ep
                (RequestOptions.mk m hd v p) h).
Proof.
  split; [|split].
  - intros e B. unfold apiRequest_any, bind, await. rewrite B. reflexivity.
  - intros body B. unfold apiRequest_any, bind, await. rewrite B.
    apply respond_outcome.
  - intros m hd v p ->.
    destruct (apiRequest_any_value env stringify network ep m hd v p)
      as [B E].
    split; [eexists; exact B | now rewrite E].
Qed.

(** X4. A response that does not declare JSON, other than a 204, is
    taken as text and never parsed: on success the data is the text
    itself, as a string, and on failure the error is the response's
    [statusText] whatever the text says, a JSON text with a [message]
    included. *)
Theorem apiRequest_text_body env stringify network ep o h response s :
  network (build_url env ep (RequestOptions.params o))
          (requestOptions stringify o) = Normal response ->
  isJson response = false ->
  Response.status response <> 204%Z ->
  Response.text response = Normal s ->
  exists h',
    apiRequest env stringify network ep o h
    = (h', Normal (mkApiResponse
                     (if Response.ok response then JStr s else JUndefined)
                     (if Response.ok response then JUndefined
                      else JStr (Response.statusText response))
                     (Response.status response))).
Proof.
  intros H J S T.
  assert (D : decoded response = Normal (JStr s)).
  { unfold decoded. rewrite J, T.
    destruct (Z.eqb_spec (Response.status response) 204);
      [contradiction | reflexivity]. }
  rewrite (apiRequest_answered env stringify network _ _ h _ _ H D).
  eexists. reflexivity.
Qed.

(** X5. Status 0 is kept for the failures the gateway catches: when the
    collaborator never answers with a status of 0, a Result has status 0
    exactly when [fetch] rejected or reading the body threw. *)
Theorem apiRequest_status_zero env stringify network ep o h :
  (forall response,
      network (build_url env ep (RequestOptions.params o))
              (requestOptions stringify o) = Normal response ->
      Response.status response <> 0%Z) ->
  exists h' res,
    apiRequest env stringify network ep o h = (h', Normal res)
    /\ (status res = 0%Z <->
        (exists e,
            network (build_url env ep (RequestOptions.params o))
                    (requestOptions stringify o) = Throw e)
        \/ (exists response e,
               network (build_url env ep (RequestOptions.params o))
                       (requestOptions stringify o) = Normal response
               /\ decoded response = Throw e)).
Proof.
  intros Z.
  destruct (network (build_url env ep (RequestOptions.params o))
                    (requestOptions stringify o)) as [response|e] eqn:H.
  - destruct (decoded response) as [d|e] eqn:D.
    + rewrite (apiRequest_answered env stringify network _ _ h _ _ H D).
      eexists; eexists; split; [reflexivity|]. simpl. split.
      * intros E. exfalso. exact (Z response eq_refl E).
      * intros [[e C] | (r & e & E & C)]; [discriminate|].
        inversion E; subst r. rewrite D in C. discriminate.
    + rewrite (apiRequest_undecodable env stringify network _ _ h _ _ H D).
      eexists; eexists; split; [reflexivity|]. simpl. split; [|reflexivity].
      intros _. right. now exists response, e.
  - rewrite (apiRequest_rejected env stringify network _ _ h _ H).
    eexists; eexists; split; [reflexivity|]. simpl. split; [|reflexivity].
    intros _. left. now exists e.
Qed.

(** X6. The caller's headers reach the request: every header other than
    Accept and Content-Type is sent with the caller's value, and none is
    invented; the request always asks for credentials to be included and
    keeps the caller's method. *)
Theorem requestHeaders_passthrough stringify (o : RequestOptions.t) k :
  NoDup (map fst (caller_headers o)) ->
  k <> "Accept" -> k <> "Content-Type" ->
  obj_get (requestHeaders o) k = obj_get (caller_headers o) k
  /\ RequestInit.headers (requestOptions stringify o)
     = Some (requestHeaders o)
  /\ RequestInit.credentials (requestOptions stringify o) = "include"
  /\ RequestInit.method (requestOptions stringify o) = RequestOptions.method o.
Proof.
  intros D A C.
  assert (S : obj_get (obj_spread [("Accept", "application/json")]
                                  (caller_headers o)) k
              = obj_get (caller_headers o) k).
  { rewrite obj_get_spread by assumption.
    destruct (obj_get (caller_headers o) k); [reflexivity|].
    unfold obj_get.
    destruct (String.eqb_spec "Accept" k); [congruence | reflexivity]. }
  split; [|repeat split].
  unfold requestHeaders. fold (caller_headers o).
  destruct (truthy (RequestOptions.body o)
            && negb (instanceof_FormData (RequestOptions.body o)));
    [|exact S].
  rewrite obj_get_set_other by congruence. exact S.
Qed.

(** * Further properties of the downloads *)

Lemma object_url_of_inj n m : object_url_of n = object_url_of m -> n = m.
Proof.
  unfold object_url_of. intros E. simpl in E. injection E as E.
  apply Unsigned.to_uint_inj.
  apply (f_equal NilEmpty.uint_of_string) in E.
  rewrite !NilEmpty.usu in E. now injection E.
Qed.

(** On a fresh host the anchor-click sequence changes the downloads and
    the counter, and nothing else. *)
Lemma save_as_tidy blob filename h :
  fresh_host h ->
  save_as blob filename h
  = (mkHost (fetched h) (console_errors h) (S (S (next_id h)))
            (object_urls h) (body_children h)
            (saves h ++ [mkSave filename (object_url_of (next_id h))
                                (Some blob)]),
     Normal tt).
Proof.
  intros [FA FU].
  unfold save_as, bind, createObjectURL, createElement_a, appendChild, click,
    removeChild, revokeObjectURL.
  cbn [fetched console_errors next_id object_urls body_children saves
       anchor_id href download obj_get fst snd filter].
  rewrite String.eqb_refl. cbn [negb].
  rewrite filter_app. cbn [filter anchor_id]. rewrite Nat.eqb_refl. cbn [negb].
  rewrite app_nil_r.
  rewrite (filter_all _ (body_children h)).
  - rewrite (filter_all _ (object_urls h)); [reflexivity|].
    intros [u b] I. cbn [fst].
    destruct (FU u b I) as (n & L & ->).
    destruct (String.eqb_spec (object_url_of n) (object_url_of (next_id h)))
      as [E|E]; [|reflexivity].
    apply object_url_of_inj in E. lia.
  - intros a I. specialize (FA a I).
    destruct (Nat.eqb_spec (anchor_id a) (S (next_id h))); [lia | reflexivity].
Qed.

Section DownloadEffects.
Variable network : string -> RequestInit.t -> Completion Response.t.
Variable label : string.
Variables url filename : string.

Lemma download_run_tidy :
  download_tidy network (download_run network label url filename) url.
Proof.
  intros h response blob F H R B. unfold download_run.
  cbv beta delta [try_catch bind fetch throw await console_error ret].
  rewrite H. apply ok_in_range in R. rewrite R, B. cbv beta iota delta [negb].
  rewrite save_as_tidy; [|exact F].
  eexists; split; [reflexivity|].
  unfold fresh_host. cbn [body_children object_urls console_errors next_id].
  repeat split; try reflexivity.
  - intros a I. destruct F as [FA _]. specialize (FA a I). lia.
  - intros u b I. destruct F as [_ FU].
    destruct (FU u b I) as (n & L & E). exists n. split; [lia | exact E].
Qed.

Lemma download_run_reports :
  download_reports network (download_run network label url filename)
                   label url.
Proof.
  intros h. unfold download_run.
  cbv beta delta [try_catch bind fetch throw await console_error ret].
  split; [|split].
  - intros e H. rewrite H. reflexivity.
  - intros response H R. rewrite H.
    destruct (Response.ok response) eqn:K;
      [apply ok_in_range in K; contradiction|].
    reflexivity.
  - intros response e H R B. rewrite H.
    apply ok_in_range in R. rewrite R, B. reflexivity.
Qed.
End DownloadEffects.

(** X7. A successful download leaves no trace but the download itself:
    [downloadFile] and [downloadBatchResults] remove the anchor they
    added and revoke the object URL they created, log nothing, and keep
    the host's identifiers fresh. *)
Theorem download_tidies env network ep filename params batchId :
  download_tidy network
    (downloadFile env network ep filename params)
    (build_url env ep params)
  /\ download_tidy network
       (downloadBatchResults network batchId)
       ("/api/batch/download/" ++ batchId)%string.
Proof.
  rewrite downloadFile_run, downloadBatchResults_run.
  split; apply download_run_tidy.
Qed.

(** X8. A failed download is reported on the console exactly once, under
    the operation's own label, and nothing else happens after the
    request: the value [fetch] rejected with, an [Error] with the text
    "Download failed: " and the [statusText] for a response that is not
    ok, or the value [blob()] rejected with. *)
Theorem download_reports_failure env network ep filename params batchId :
  download_reports network
    (downloadFile env network ep filename params)
    "File download failed:" (build_url env ep params)
  /\ download_reports network
       (downloadBatchResults network batchId)
       "Batch download failed:" ("/api/batch/download/" ++ batchId)%string.
Proof.
  rewrite downloadFile_run, downloadBatchResults_run.
  split; apply download_run_reports.
Qed.

(** * The endpoint modules *)











(** What a [get] sends: one request, to the URL built from the endpoint
    and the parameters, without body and with Accept as only header. *)
Lemma get_fetches env stringify network ep params h :
  exists h' res,
    get env stringify network ep params h = (h', Normal res)
    /\ fetched h' = fetched h ++ [(build_url env ep params, get_init)].
Proof.
  unfold get.
  destruct (apiRequest_fetches env stringify network ep
              (RequestOptions.mk GET None JUndefined params) h)
    as (h' & res & E & F).
  exists h', res. split; [exact E | exact F].
Qed.



(** X12. [searchTemplates] always sends its term, the empty one too, as
    the encoded value of the one parameter [name]: whatever the term
    holds, the URL is the search endpoint followed by ?name= and a text
    free of the reserved characters. *)
Theorem searchTemplates_request env stringify network searchTerm h :
  (exists h' res,
      searchTemplates env stringify network searchTerm h = (h', Normal res)
      /\ fetched h'
         = fetched h
           ++ [(((API_BASE_URL env ++ "/templates/search")
                 ++ "?name=" ++ urlencode searchTerm)%string, get_init)])
  /\ forall c, In c reserved -> occurrences c (urlencode searchTerm) = 0.
Proof.
  split.
  - unfold searchTemplates.
    destruct (get_fetches env stringify network "/templates/search"
                (Some [("name", PString searchTerm)]) h)
      as (h' & res & E & F).
    exists h', res. split; [exact E|]. rewrite F. reflexivity.
  - intros c R. now apply urlencode_reserved.
Qed.


(** ** The requests made outside the gateway *)

(** The inner [try] never throws and never touches the host: it yields
    the message of a body that has a truthy one, and [statusText] when the
    body has none, is null or does not parse. *)
Lemma errorMessage_of_value response h :
  errorMessage_of response h = (h, Normal (errorMessage_value response)).
Proof.
  unfold errorMessage_of, errorMessage_value, try_catch, bind, await, ret.
  destruct (Response.json response) as [d|e]; [|reflexivity].
  destruct d; reflexivity.
Qed.

Lemma errorMessage_value_present response :
  present (errorMessage_value response).
Proof.
  unfold errorMessage_value.
  destruct (Response.json response); [apply js_or_string_present | reflexivity].
Qed.

Section StatusQuery.
Variable network : string -> RequestInit.t -> Completion Response.t.
Variables label url : string.

Lemma status_query_rejected h e :
  network url plain_get = Throw e ->
  status_query network label url h
  = (logged (sent h url plain_get) label e,
     Normal (mkApiResponse JUndefined (JStr (error_message e)) 0)).
Proof.
  intros H. unfold status_query, try_catch, bind, fetch.
  fold plain_get. rewrite H. reflexivity.
Qed.

Lemma status_query_refused h response :
  network url plain_get = Normal response ->
  Response.ok response = false ->
  status_query network label url h
  = (sent h url plain_get,
     Normal (mkApiResponse JUndefined (errorMessage_value response)
                           (Response.status response))).
Proof.
  intros H K. unfold status_query, try_catch, bind, fetch.
  fold plain_get. rewrite H, K. cbn [negb].
  rewrite errorMessage_of_value. reflexivity.
Qed.

Lemma status_query_answered h response d :
  network url plain_get = Normal response ->
  Response.ok response = true ->
  Response.json response = Normal d ->
  status_query network label url h
  = (sent h url plain_get,
     Normal (mkApiResponse d JUndefined (Response.status response))).
Proof.
  intros H K J. unfold status_query, try_catch, bind, fetch, await.
  fold plain_get. rewrite H, K, J. reflexivity.
Qed.

Lemma status_query_unparsed h response e :
  network url plain_get = Normal response ->
  Response.ok response = true ->
  Response.json response = Throw e ->
  status_query network label url h
  = (logged (sent h url plain_get) label e,
     Normal (mkApiResponse JUndefined (JStr (error_message e)) 0)).
Proof.
  intros H K J. unfold status_query, try_catch, bind, fetch, await.
  fold plain_get. rewrite H, K, J. reflexivity.
Qed.
End StatusQuery.

(** Each status query is the shared body under its own label. *)
Lemma pdf_query_run network analysisId run url :
  pdf_query network analysisId run url ->
  exists label, run = status_query network label url.
Proof.
  intros [[-> ->] | [-> ->]]; eexists; reflexivity.
Qed.

Lemma not_ok response :
  ~ in_ok_range (Response.status response) -> Response.ok response = false.
Proof.
  intros R. destruct (Response.ok response) eqn:K; [|reflexivity].
  apply ok_in_range in K. contradiction.
Qed.

(** X14. [checkAnalysisStatus] and [getExtractedVariables] report a
    response that is not ok under its own status whatever its body is:
    the error is the body's [message] when the body parses as JSON and has
    a truthy one, and the [statusText] when it has none, is null or does
    not parse. Nothing is logged, and the error is never missing. *)
Theorem pdf_query_refused network analysisId run url h response :
  pdf_query network analysisId run url ->
  network url plain_get = Normal response ->
  ~ in_ok_range (Response.status response) ->
  run h
  = (sent h url plain_get,
     Normal (mkApiResponse JUndefined (errorMessage_value response)
                           (Response.status response)))
  /\ present (errorMessage_value response)
  /\ (forall e, Response.json response = Throw e ->
                errorMessage_value response
                = JStr (Response.statusText response))
  /\ (Response.json response = Normal JNull ->
      errorMessage_value response = JStr (Response.statusText response))
  /\ (forall fields m,
         Response.json response = Normal (JObj fields) ->
         obj_get fields "message" = Some m -> truthy m = true ->
         errorMessage_value response = m).
Proof.
  intros Q H R. destruct (pdf_query_run _ _ _ _ Q) as [label ->].
  split; [exact (status_query_refused network label url h response H
                                      (not_ok response R))|].
  split; [apply errorMessage_value_present|].
  unfold errorMessage_value. split; [|split].
  - intros e ->. reflexivity.
  - intros ->. reflexivity.
  - intros fields m -> G T. unfold js_or. simpl. rewrite G, T. reflexivity.
Qed.

(** X15. On a response that is ok the status queries parse the body as
    JSON without looking at the content type: what parses is the data,
    under the response's status; a body that does not parse, the empty
    body of a 204 for one, makes the Result a caught failure with
    status 0, logged on the console. *)
Theorem pdf_query_answered network analysisId run url h response :
  pdf_query network analysisId run url ->
  network url plain_get = Normal response ->
  in_ok_range (Response.status response) ->
  (forall d,
      Response.json response = Normal d ->
      run h
      = (sent h url plain_get,
         Normal (mkApiResponse d JUndefined (Response.status response))))
  /\ (forall e,
         Response.json response = Throw e ->
         exists label,
           run h
           = (logged (sent h url plain_get) label e,
              Normal (mkApiResponse JUndefined (JStr (error_message e)) 0))).
Proof.
  intros Q H R. destruct (pdf_query_run _ _ _ _ Q) as [label ->].
  apply ok_in_range in R. split.
  - intros d J. exact (status_query_answered network label url h response d H R J).
  - intros e J. exists label.
    exact (status_query_unparsed network label url h response e H R J).
Qed.

(** X16. The status queries never reject: every call resolves to a
    Result after exactly one request, a Result that never has both data
    and error, and whose status is the response's unless it is the 0 of a
    caught failure. *)
Theorem pdf_query_resolves network analysisId run url h :
  pdf_query network analysisId run url ->
  exists h' res,
    run h = (h', Normal res)
    /\ fetched h' = fetched h ++ [(url, plain_get)]
    /\ ~ (present (data res) /\ present (error res))
    /\ (status res = 0%Z
        \/ exists response,
            network url plain_get = Normal response
            /\ status res = Response.status response).
Proof.
  intros Q. destruct (pdf_query_run _ _ _ _ Q) as [label ->].
  destruct (network url plain_get) as [response|e] eqn:H.
  - destruct (Response.ok response) eqn:K.
    + destruct (Response.json response) as [d|e] eqn:J.
      * rewrite (status_query_answered network label url h response d H K J).
        eexists; eexists; split; [reflexivity|]. simpl.
        split; [reflexivity|]. split; [intros [_ C]; discriminate C|].
        right. now exists response.
      * rewrite (status_query_unparsed network label url h response e H K J).
        eexists; eexists; split; [reflexivity|]. simpl.
        split; [reflexivity|]. split; [intros [C _]; discriminate C|].
        now left.
    + rewrite (status_query_refused network label url h response H K).
      eexists; eexists; split; [reflexivity|]. simpl.
      split; [reflexivity|]. split; [intros [C _]; discriminate C|].
      right. now exists response.
  - rewrite (status_query_rejected network label url h e H).
    eexists; eexists; split; [reflexivity|]. simpl.
    split; [reflexivity|]. split; [intros [C _]; discriminate C|].
    now left.
Qed.

(** X17. For a response that declares JSON and whose body parses, the
    status queries give the very Result the gateway gives: the same data,
    error and status as [apiRequest] on any request that gets this
    response. *)
Theorem pdf_query_agrees_with_gateway
        env stringify network analysisId run url h ep o h0 response d :
  pdf_query network analysisId run url ->
  network url plain_get = Normal response ->
  network (build_url env ep (RequestOptions.params o))
          (requestOptions stringify o) = Normal response ->
  isJson response = true ->
  Response.json response = Normal d ->
  snd (run h) = snd (apiRequest env stringify network ep o h0).
Proof.
  intros Q H G J P. destruct (pdf_query_run _ _ _ _ Q) as [label ->].
  assert (D : decoded response = Normal d).
  { unfold decoded. now rewrite J. }
  rewrite (apiRequest_answered env stringify network _ _ h0 _ _ G D).
  destruct (Response.ok response) eqn:K.
  - rewrite (status_query_answered network label url h response d H K P).
    reflexivity.
  - rewrite (status_query_refused network label url h response H K).
    unfold errorMessage_value. rewrite P. reflexivity.
Qed.

(** X18. [generateData] does not catch: when [fetch] rejects, and when
    the blob of a response that is ok cannot be read, the call rejects
    with the very value thrown, after its one request and without a word
    on the console. *)
Theorem generateData_rejects stringify network request h e :
  (network "/api/generate" (generate_init stringify request) = Throw e ->
   generateData stringify network request h
   = (sent h "/api/generate" (generate_init stringify request), Throw e))
  /\ (forall response,
         network "/api/generate" (generate_init stringify request)
         = Normal response ->
         in_ok_range (Response.status response) ->
         Response.blob response = Throw e ->
         generateData stringify network request h
         = (sent h "/api/generate" (generate_init stringify request),
            Throw e)).
Proof.
  unfold generateData, bind, fetch, await. fold (generate_init stringify request).
  split.
  - intros H. rewrite H. reflexivity.
  - intros response H R B. rewrite H. apply ok_in_range in R.
    rewrite R, B. reflexivity.
Qed.

(** X19. Once [generateData] has a response it resolves: to the blob,
    under the response's status, when the response is ok and its blob can
    be read; and for a response that is not ok, whatever its body, to the
    response's status with the body's truthy [message] or else the
    [statusText] as error, and no data. *)
Theorem generateData_resolves stringify network request h response :
  network "/api/generate" (generate_init stringify request) = Normal response ->
  (~ in_ok_range (Response.status response) ->
   generateData stringify network request h
   = (sent h "/api/generate" (generate_init stringify request),
      Normal (mkApiResponseBlob None (errorMessage_value response)
                                (Response.status response)))
   /\ present (errorMessage_value response))
  /\ (forall blob,
         in_ok_range (Response.status response) ->
         Response.blob response = Normal blob ->
         generateData stringify network request h
         = (sent h "/api/generate" (generate_init stringify request),
            Normal (mkApiResponseBlob (Some blob) JUndefined
                                      (Response.status response)))).
Proof.
  intros H.
  unfold generateData, bind, fetch, await. fold (generate_init stringify request).
  rewrite H. split.
  - intros R. rewrite (not_ok response R). cbn [negb].
    rewrite errorMessage_of_value.
    split; [reflexivity | apply errorMessage_value_present].
  - intros blob R B. apply ok_in_range in R. rewrite R, B. reflexivity.
Qed.

(** ** The helpers of the gateway *)

(** What [post] and [put] send for data of any kind, by what the data
    is. *)
Lemma any_request env stringify network ep m (data : Body) params h body
      (headers : JsObject string) :
  requestBody stringify (AnyOptions.mk m None data params) = Normal body ->
  requestHeaders_any (AnyOptions.mk m None data params) = headers ->
  exists h' res,
    apiRequest_any env stringify network ep
      (AnyOptions.mk m None data params) h = (h', Normal res)
    /\ fetched h'
       = fetched h
         ++ [(build_url env ep params,
              RequestInit.mk m (Some headers) "include" body)].
Proof.
  intros B <-. unfold apiRequest_any, bind, await. rewrite B.
  destruct (respond_outcome network
              (build_url env ep params)
              (RequestInit.mk m
                 (Some (requestHeaders_any (AnyOptions.mk m None data params)))
                 "include" body) h) as (h' & res & E & F & _).
  exists h', res. split; [exact E | exact F].
Qed.

(** X20. The four helpers send what their name says and nothing more:
    [get] and [del] a request without body whose only header is Accept;
    [post] and [put] the same when their data is missing or falsy, and a
    form as it is, under Accept alone. For any other data Content-Type
    application/json comes after Accept, and the body is what
    [JSON.stringify] makes of the data: its text; no body at all when it
    yields [undefined], as for a function; and when it throws, as on a
    BigInt or an object that refers to itself, nothing is sent and the
    call rejects with the value thrown. On a [JsValue] the text is always
    there. *)
Theorem helper_requests env stringify network ep (data : Body) params h :
  (exists h' res,
      get env stringify network ep params h = (h', Normal res)
      /\ fetched h' = fetched h ++ [(build_url env ep params, get_init)])
  /\ (exists h' res,
         del env stringify network ep h = (h', Normal res)
         /\ fetched h'
            = fetched h
              ++ [((API_BASE_URL env ++ ep)%string,
                   RequestInit.mk DELETE (Some [("Accept", "application/json")])
                                  "include" None)])
  /\ (body_truthy data = false ->
      (exists h' res,
          post_any env stringify network ep data params h = (h', Normal res)
          /\ fetched h'
             = fetched h
               ++ [(build_url env ep params,
                    RequestInit.mk POST (Some [("Accept", "application/json")])
                                   "include" None)])
      /\ (exists h' res,
             put_any env stringify network ep data h = (h', Normal res)
             /\ fetched h'
                = fetched h
                  ++ [((API_BASE_URL env ++ ep)%string,
                       RequestInit.mk PUT (Some [("Accept", "application/json")])
                                      "include" None)]))
  /\ (forall fd,
         data = BodyValue (JFormData fd) ->
         (exists h' res,
             post_any env stringify network ep data params h = (h', Normal res)
             /\ fetched h'
                = fetched h
                  ++ [(build_url env ep params,
                       RequestInit.mk POST
                         (Some [("Accept", "application/json")])
                         "include" (Some (BodyFormData fd)))])
         /\ (exists h' res,
                put_any env stringify network ep data h = (h', Normal res)
                /\ fetched h'
                   = fetched h
                     ++ [((API_BASE_URL env ++ ep)%string,
                          RequestInit.mk PUT
                            (Some [("Accept", "application/json")])
                            "include" (Some (BodyFormData fd)))]))
  /\ (body_truthy data = true -> body_is_form data = false ->
      (forall e,
          stringify_body stringify data = Throw e ->
          post_any env stringify network ep data params h = (h, Throw e)
          /\ put_any env stringify network ep data h = (h, Throw e))
      /\ (forall text,
             stringify_body stringify data = Normal text ->
             (exists h' res,
                 post_any env stringify network ep data params h
                 = (h', Normal res)
                 /\ fetched h'
                    = fetched h
                      ++ [(build_url env ep params,
                           RequestInit.mk POST
                             (Some [("Accept", "application/json");
                                    ("Content-Type", "application/json")])
                             "include" (option_map BodyText text))])
             /\ (exists h' res,
                    put_any env stringify network ep data h = (h', Normal res)
                    /\ fetched h'
                       = fetched h
                         ++ [((API_BASE_URL env ++ ep)%string,
                              RequestInit.mk PUT
                                (Some [("Accept", "application/json");
                                       ("Content-Type", "application/json")])
                                "include" (option_map BodyText text))])))
  /\ (forall v,
         data = BodyValue v ->
         stringify_body stringify data = Normal (Some (stringify v))
         /\ post_any env stringify network ep data params h
            = post env stringify network ep v params h
         /\ put_any env stringify network ep data h
            = put env stringify network ep v h).
Proof.
  split; [apply get_fetches|]. split; [|split; [|split; [|split]]].
  - unfold del.
    destruct (apiRequest_fetches env stringify network ep
                (RequestOptions.mk DELETE None JUndefined None) h)
      as (h' & res & E & G).
    exists h', res. split; [exact E | exact G].
  - intros F.
    split; [unfold post_any | unfold put_any];
      apply any_request;
      unfold requestBody, requestHeaders_any; simpl; rewrite F; reflexivity.
  - intros fd ->.
    split; [unfold post_any | unfold put_any];
      apply any_request; reflexivity.
  - intros T F. split.
    + intros e S.
      assert (B : forall m p,
                 requestBody stringify (AnyOptions.mk m None data p) = Throw e).
      { intros m p. unfold requestBody. simpl. rewrite T.
        destruct data as [v|t c]; [|now rewrite S].
        destruct v; try discriminate F; now rewrite S. }
      unfold post_any, put_any, apiRequest_any, bind, await.
      rewrite !B. split; reflexivity.
    + intros text S.
      assert (B : forall m p,
                 requestBody stringify (AnyOptions.mk m None data p)
                 = Normal (option_map BodyText text)).
      { intros m p. unfold requestBody. simpl. rewrite T.
        destruct data as [v|t c]; [|rewrite S; now destruct text].
        destruct v; try discriminate F; rewrite S; now destruct text. }
      split; [unfold post_any | unfold put_any];
        apply any_request; try apply B;
        unfold requestHeaders_any; simpl; rewrite T, F; reflexivity.
  - intros v ->. split; [reflexivity|].
    unfold post_any, put_any, post, put.
    split; apply (f_equal (fun f => f h)), apiRequest_any_value.
Qed.

(** X21. [generateDataPreview] always posts a JSON body, a template id
    of 0 included, that names the template, the row count, 5 when the
    caller gives none, and the output format, CSV when the caller gives
    none. *)
Theorem generateDataPreview_request
        env stringify network templateId rowCount outputFormat h :
  exists h' res,
    generateDataPreview env stringify network templateId rowCount outputFormat h
    = (h', Normal res)
    /\ fetched h'
       = fetched h
         ++ [((API_BASE_URL env ++ "/generate/preview")%string,
              RequestInit.mk POST
                (Some [("Accept", "application/json");
                       ("Content-Type", "application/json")])
                "include"
                (Some (BodyText
                         (stringify
                            (JObj [("templateId", JNum templateId);
                                   ("rowCount",
                                    JNum (match rowCount with
                                          | Some n => n
                                          | None => 5%Z
                                          end));
                                   ("outputFormat",
                                    JStr (match outputFormat with
                                          | Some JSON => "JSON"
                                          | Some XML => "XML"
                                          | Some CSV | None => "CSV"
                                          end))])))))].
Proof.
  unfold generateDataPreview, post.
  match goal with
  | |- context [apiRequest _ _ _ ?ep ?o] =>
      destruct (apiRequest_fetches env stringify network ep o h)
        as (h' & res & E & G)
  end.
  exists h', res. split; [exact E|]. rewrite G.
  destruct outputFormat as [[]|]; reflexivity.
Qed.

(** X22. [analyzePdf] uploads the file alone, under the field name
    file: one POST to the analysis endpoint whose body is the form with
    that single entry, and whose only header is Accept, so that the
    Content-Type is left to the platform. *)
Theorem analyzePdf_request env stringify network file h :
  exists h' res,
    analyzePdf env stringify network file h = (h', Normal res)
    /\ fetched h'
       = fetched h
         ++ [((API_BASE_URL env ++ "/pdf/analyze")%string,
              RequestInit.mk POST (Some [("Accept", "application/json")])
                "include" (Some (BodyFormData [("file", FVFile file)])))].
Proof.
  unfold analyzePdf, uploadFile.
  destruct (apiRequest_fetches env stringify network "/pdf/analyze"
              (RequestOptions.mk POST None
                 (JFormData (upload_formData file None None)) None) h)
    as (h' & res & E & F).
  exists h', res. split; [exact E | exact F].
Qed.

(** * The further properties on concrete calls *)

Lemma build_url_query_witness :
  (forall e, In e void_params -> param_defined (snd e) = false)
  /\ build_url None "/templates" (Some void_params)
     = "http://localhost:8080/tdg/api/templates"
  /\ queryParams abc_params <> []
  /\ build_url None "/templates" (Some abc_params)
     = "http://localhost:8080/tdg/api/templates?a=1&c=x".
Proof.
  assert (V : forall e, In e void_params -> param_defined (snd e) = false).
  { intros e [<- | [<- | []]]; reflexivity. }
  assert (N : queryParams abc_params <> []) by discriminate.
  destruct (build_url_query None "/templates") as (_ & P).
  destruct (P void_params) as (Q & E & _).
  destruct (P abc_params) as (_ & _ & A).
  split; [exact V|]. split; [exact (E (proj2 Q V))|].
  split; [exact N|]. rewrite (A N). reflexivity.
Defined.

Lemma apiRequest_text_body_witness :
  stub_network (Normal not_found_h2)
    (build_url None "/templates/7" (RequestOptions.params get_options))
    (requestOptions stub_stringify get_options) = Normal not_found_h2
  /\ isJson not_found_h2 = false
  /\ Response.status not_found_h2 <> 204%Z
  /\ Response.text not_found_h2 = Normal "<h1>Not Found</h1>"
  /\ exists h',
      apiRequest None stub_stringify (stub_network (Normal not_found_h2))
        "/templates/7" get_options host0
      = (h', Normal (mkApiResponse JUndefined (JStr "") 404)).
Proof.
  assert (S : Response.status not_found_h2 <> 204%Z) by discriminate.
  split; [reflexivity|]. split; [reflexivity|]. split; [exact S|].
  split; [reflexivity|].
  exact (apiRequest_text_body None stub_stringify
           (stub_network (Normal not_found_h2)) "/templates/7" get_options
           host0 not_found_h2 "<h1>Not Found</h1>"
           eq_refl eq_refl S eq_refl).
Defined.

Lemma apiRequest_status_zero_witness :
  (forall response,
      stub_network (Normal no_content_json)
        (build_url None "/schedules/3" (RequestOptions.params get_options))
        (requestOptions stub_stringify get_options) = Normal response ->
      Response.status response <> 0%Z)
  /\ exists h' res,
      apiRequest None stub_stringify (stub_network (Normal no_content_json))
        "/schedules/3" get_options host0 = (h', Normal res)
      /\ status res = 0%Z.
Proof.
  assert (Z : forall response,
             stub_network (Normal no_content_json)
               (build_url None "/schedules/3" (RequestOptions.params get_options))
               (requestOptions stub_stringify get_options) = Normal response ->
             Response.status response <> 0%Z).
  { intros response E. inversion E. discriminate. }
  split; [exact Z|].
  destruct (apiRequest_status_zero None stub_stringify
              (stub_network (Normal no_content_json))
              "/schedules/3" get_options host0 Z) as (h' & res & E & S).
  exists h', res. split; [exact E|].
  apply S. right. exists no_content_json.
  exists (ThrownError "Unexpected end of JSON input").
  split; reflexivity.
Defined.

Lemma requestHeaders_passthrough_witness :
  NoDup (map fst (caller_headers trace_options))
  /\ "X-Trace" <> "Accept" /\ "X-Trace" <> "Content-Type"
  /\ obj_get (requestHeaders trace_options) "X-Trace" = Some "abc".
Proof.
  assert (D : NoDup (map fst (caller_headers trace_options))).
  { simpl. constructor; [intros [] | constructor]. }
  assert (A : "X-Trace" <> "Accept") by discriminate.
  assert (C : "X-Trace" <> "Content-Type") by discriminate.
  split; [exact D|]. split; [exact A|]. split; [exact C|].
  exact (proj1 (requestHeaders_passthrough stub_stringify trace_options
                  "X-Trace" D A C)).
Defined.

Lemma host0_fresh : fresh_host host0.
Proof. split; [intros a [] | intros u b []]. Defined.

Lemma download_tidies_witness :
  fresh_host host0
  /\ stub_network (Normal csv_download)
       (build_url None "/generate/7" None) plain_get = Normal csv_download
  /\ in_ok_range (Response.status csv_download)
  /\ Response.blob csv_download = Normal (mkBlob "id,name")
  /\ exists h',
      downloadFile None (stub_network (Normal csv_download))
        "/generate/7" "generated_data.csv" None host0 = (h', Normal true)
      /\ body_children h' = [] /\ object_urls h' = []
      /\ console_errors h' = [].
Proof.
  assert (R : in_ok_range (Response.status csv_download))
    by (unfold in_ok_range; simpl; lia).
  split; [exact host0_fresh|]. split; [reflexivity|]. split; [exact R|].
  split; [reflexivity|].
  destruct (proj1 (download_tidies None (stub_network (Normal csv_download))
                     "/generate/7" "generated_data.csv" None "42")
              host0 csv_download (mkBlob "id,name")
              host0_fresh eq_refl R eq_refl)
    as (h' & E & B & U & C & _).
  exists h'. repeat split; assumption.
Defined.

Lemma download_reports_failure_witness :
  stub_network (Normal bad_gateway) "/api/batch/download/42" plain_get
  = Normal bad_gateway
  /\ ~ in_ok_range (Response.status bad_gateway)
  /\ downloadBatchResults (stub_network (Normal bad_gateway)) "42" host0
     = (logged (sent host0 "/api/batch/download/42" plain_get)
               "Batch download failed:"
               (ThrownError "Download failed: Bad Gateway"),
        Normal false).
Proof.
  assert (R : ~ in_ok_range (Response.status bad_gateway))
    by (unfold in_ok_range; simpl; lia).
  split; [reflexivity|]. split; [exact R|].
  destruct (proj2 (download_reports_failure None
                     (stub_network (Normal bad_gateway))
                     "/x" "x.csv" None "42") host0) as (_ & N & _).
  exact (N bad_gateway eq_refl R).
Defined.





Lemma apiRequest_side_effects_witness :
  requestBody stub_stringify (AnyOptions.mk POST None circular_body None)
  = Throw (ThrownError "Converting circular structure to JSON")
  /\ apiRequest_any None stub_stringify (stub_network (Normal name_required))
       "/templates" (AnyOptions.mk POST None circular_body None) host0
     = (host0, Throw (ThrownError "Converting circular structure to JSON"))
  /\ requestBody stub_stringify
       (AnyOptions.mk GET None (BodyValue JUndefined) None) = Normal None
  /\ exists h' res,
      apiRequest None stub_stringify (stub_network (Normal name_required))
        "/templates" get_options host0 = (h', Normal res)
      /\ fetched h'
         = [("http://localhost:8080/tdg/api/templates", get_init)]
      /\ saves h' = [].
Proof.
  split; [reflexivity|].
  destruct (apiRequest_side_effects None stub_stringify
              (stub_network (Normal name_required)) "/templates"
              (AnyOptions.mk POST None circular_body None) host0)
    as (T & _).
  split; [exact (T _ eq_refl)|]. split; [reflexivity|].
  destruct (apiRequest_side_effects None stub_stringify
              (stub_network (Normal name_required)) "/templates"
              (AnyOptions.mk GET None (BodyValue JUndefined) None) host0)
    as (_ & N & V).
  destruct (N None eq_refl) as (h' & res & E & F & S & _).
  destruct (V GET None JUndefined None eq_refl) as (_ & A).
  rewrite A in E. exists h', res.
  split; [exact E|]. split; [exact F | exact S].
Defined.

Lemma searchTemplates_request_witness :
  In "&"%char reserved
  /\ urlencode "a&b=c d" = "a%26b%3Dc+d"
  /\ occurrences "&" (urlencode "a&b=c d") = 0.
Proof.
  assert (R : In "&"%char reserved) by (left; reflexivity).
  split; [exact R|]. split; [reflexivity|].
  exact (proj2 (searchTemplates_request None stub_stringify
                  (stub_network (Normal name_required)) "a&b=c d" host0)
               "&"%char R).
Defined.

Lemma pdf_query_refused_witness :
  pdf_query (stub_network (Normal name_required)) "a1"
    (checkAnalysisStatus (stub_network (Normal name_required)) "a1")
    "/api/pdf/status/a1"
  /\ ~ in_ok_range (Response.status name_required)
  /\ snd (checkAnalysisStatus (stub_network (Normal name_required)) "a1" host0)
     = Normal (mkApiResponse JUndefined (JStr "name is required") 400).
Proof.
  assert (Q : pdf_query (stub_network (Normal name_required)) "a1"
                (checkAnalysisStatus (stub_network (Normal name_required)) "a1")
                "/api/pdf/status/a1")
    by (left; split; reflexivity).
  assert (R : ~ in_ok_range (Response.status name_required))
    by (unfold in_ok_range; simpl; lia).
  split; [exact Q|]. split; [exact R|].
  rewrite (proj1 (pdf_query_refused (stub_network (Normal name_required))
                    "a1" _ _ host0 name_required Q eq_refl R)).
  reflexivity.
Defined.

Lemma pdf_query_answered_witness :
  pdf_query (stub_network (Normal no_content_json)) "a1"
    (getExtractedVariables (stub_network (Normal no_content_json)) "a1")
    "/api/pdf/variables/a1"
  /\ in_ok_range (Response.status no_content_json)
  /\ Response.json no_content_json
     = Throw (ThrownError "Unexpected end of JSON input")
  /\ snd (getExtractedVariables (stub_network (Normal no_content_json))
            "a1" host0)
     = Normal (mkApiResponse JUndefined
                             (JStr "Unexpected end of JSON input") 0).
Proof.
  assert (Q : pdf_query (stub_network (Normal no_content_json)) "a1"
                (getExtractedVariables (stub_network (Normal no_content_json))
                                       "a1")
                "/api/pdf/variables/a1")
    by (right; split; reflexivity).
  assert (R : in_ok_range (Response.status no_content_json))
    by (unfold in_ok_range; simpl; lia).
  split; [exact Q|]. split; [exact R|]. split; [reflexivity|].
  destruct (proj2 (pdf_query_answered (stub_network (Normal no_content_json))
                     "a1" _ _ host0 no_content_json Q eq_refl R)
              (ThrownError "Unexpected end of JSON input") eq_refl)
    as (label & E).
  rewrite E. reflexivity.
Defined.

Lemma pdf_query_resolves_witness :
  pdf_query (stub_network (Throw (ThrownValue JNull))) "a1"
    (checkAnalysisStatus (stub_network (Throw (ThrownValue JNull))) "a1")
    "/api/pdf/status/a1"
  /\ exists h' res,
      checkAnalysisStatus (stub_network (Throw (ThrownValue JNull))) "a1" host0
      = (h', Normal res)
      /\ fetched h' = [("/api/pdf/status/a1", plain_get)].
Proof.
  assert (Q : pdf_query (stub_network (Throw (ThrownValue JNull))) "a1"
                (checkAnalysisStatus (stub_network (Throw (ThrownValue JNull)))
                                     "a1")
                "/api/pdf/status/a1")
    by (left; split; reflexivity).
  split; [exact Q|].
  destruct (pdf_query_resolves (stub_network (Throw (ThrownValue JNull)))
              "a1" _ _ host0 Q) as (h' & res & E & F & _).
  exists h', res. split; [exact E | exact F].
Defined.

Lemma pdf_query_agrees_with_gateway_witness :
  pdf_query (stub_network (Normal (json_response 200 "OK" analysis_progress)))
    "a1"
    (checkAnalysisStatus
       (stub_network (Normal (json_response 200 "OK" analysis_progress))) "a1")
    "/api/pdf/status/a1"
  /\ isJson (json_response 200 "OK" analysis_progress) = true
  /\ snd (checkAnalysisStatus
            (stub_network (Normal (json_response 200 "OK" analysis_progress)))
            "a1" host0)
     = snd (apiRequest None stub_stringify
              (stub_network (Normal (json_response 200 "OK" analysis_progress)))
              "/pdf/status/a1" get_options host0).
Proof.
  assert (Q : pdf_query
                (stub_network (Normal (json_response 200 "OK" analysis_progress)))
                "a1"
                (checkAnalysisStatus
                   (stub_network
                      (Normal (json_response 200 "OK" analysis_progress))) "a1")
                "/api/pdf/status/a1")
    by (left; split; reflexivity).
  split; [exact Q|]. split; [reflexivity|].
  exact (pdf_query_agrees_with_gateway None stub_stringify
           (stub_network (Normal (json_response 200 "OK" analysis_progress)))
           "a1" _ _ host0 "/pdf/status/a1" get_options host0
           (json_response 200 "OK" analysis_progress) analysis_progress
           Q eq_refl eq_refl eq_refl eq_refl).
Defined.

Lemma generateData_rejects_witness :
  stub_network (Throw (ThrownError "Failed to fetch")) "/api/generate"
    (generate_init stub_stringify (JObj [("templateId", JNum 7)]))
  = Throw (ThrownError "Failed to fetch")
  /\ snd (generateData stub_stringify
            (stub_network (Throw (ThrownError "Failed to fetch")))
            (JObj [("templateId", JNum 7)]) host0)
     = Throw (ThrownError "Failed to fetch")
  /\ in_ok_range (Response.status broken_blob)
  /\ snd (generateData stub_stringify (stub_network (Normal broken_blob))
            (JObj [("templateId", JNum 7)]) host0)
     = Throw (ThrownError "body stream interrupted").
Proof.
  assert (R : in_ok_range (Response.status broken_blob))
    by (unfold in_ok_range; simpl; lia).
  split; [reflexivity|]. split; [|split; [exact R|]].
  - rewrite (proj1 (generateData_rejects stub_stringify
                      (stub_network (Throw (ThrownError "Failed to fetch")))
                      (JObj [("templateId", JNum 7)]) host0
                      (ThrownError "Failed to fetch")) eq_refl).
    reflexivity.
  - rewrite (proj2 (generateData_rejects stub_stringify
                      (stub_network (Normal broken_blob))
                      (JObj [("templateId", JNum 7)]) host0
                      (ThrownError "body stream interrupted"))
                   broken_blob eq_refl R eq_refl).
    reflexivity.
Defined.

Lemma generateData_resolves_witness :
  stub_network (Normal bad_gateway) "/api/generate"
    (generate_init stub_stringify (JObj [("templateId", JNum 7)]))
  = Normal bad_gateway
  /\ ~ in_ok_range (Response.status bad_gateway)
  /\ snd (generateData stub_stringify (stub_network (Normal bad_gateway))
            (JObj [("templateId", JNum 7)]) host0)
     = Normal (mkApiResponseBlob None (JStr "Bad Gateway") 502).
Proof.
  assert (R : ~ in_ok_range (Response.status bad_gateway))
    by (unfold in_ok_range; simpl; lia).
  split; [reflexivity|]. split; [exact R|].
  rewrite (proj1 (proj1 (generateData_resolves stub_stringify
                           (stub_network (Normal bad_gateway))
                           (JObj [("templateId", JNum 7)]) host0
                           bad_gateway eq_refl) R)).
  reflexivity.
Defined.

Lemma helper_requests_witness :
  body_truthy (BodyValue (JNum 0)) = false
  /\ body_truthy circular_body = true /\ body_is_form circular_body = false
  /\ stringify_body stub_stringify circular_body
     = Throw (ThrownError "Converting circular structure to JSON")
  /\ stringify_body stub_stringify function_body = Normal None
  /\ (exists h' res,
         post_any None stub_stringify (stub_network (Normal name_required))
                  "/schedules/3/activate" (BodyValue (JNum 0)) None host0
         = (h', Normal res)
         /\ fetched h'
            = [("http://localhost:8080/tdg/api/schedules/3/activate",
                RequestInit.mk POST (Some [("Accept", "application/json")])
                               "include" None)])
  /\ put_any None stub_stringify (stub_network (Normal name_required))
             "/templates/3" circular_body host0
     = (host0, Throw (ThrownError "Converting circular structure to JSON"))
  /\ (exists h' res,
         put_any None stub_stringify (stub_network (Normal name_required))
                 "/templates/3" function_body host0 = (h', Normal res)
         /\ fetched h'
            = [("http://localhost:8080/tdg/api/templates/3",
                RequestInit.mk PUT
                  (Some [("Accept", "application/json");
                         ("Content-Type", "application/json")])
                  "include" None)])
  /\ put_any None stub_stringify (stub_network (Normal name_required))
             "/templates/3" (BodyValue templates_page) host0
     = put None stub_stringify (stub_network (Normal name_required))
           "/templates/3" templates_page host0.
Proof.
  split; [reflexivity|]. split; [reflexivity|]. split; [reflexivity|].
  split; [reflexivity|]. split; [reflexivity|].
  destruct (helper_requests None stub_stringify
              (stub_network (Normal name_required))
              "/schedules/3/activate" (BodyValue (JNum 0)) None host0)
    as (_ & _ & F & _).
  destruct (helper_requests None stub_stringify
              (stub_network (Normal name_required))
              "/templates/3" circular_body None host0)
    as (_ & _ & _ & _ & C & _).
  destruct (helper_requests None stub_stringify
              (stub_network (Normal name_required))
              "/templates/3" function_body None host0)
    as (_ & _ & _ & _ & U & _).
  destruct (helper_requests None stub_stringify
              (stub_network (Normal name_required))
              "/templates/3" (BodyValue templates_page) None host0)
    as (_ & _ & _ & _ & _ & V).
  split; [exact (proj1 (F eq_refl))|].
  split; [exact (proj2 (proj1 (C eq_refl eq_refl) _ eq_refl))|].
  split; [exact (proj2 (proj2 (U eq_refl eq_refl) None eq_refl))|].
  exact (proj2 (proj2 (V templates_page eq_refl))).
Defined.
